(** * S3_Unitary_Ansatz: the VQE ansatz notebook as a script over its libraries

    The notebook [Project_2_VQE_Molecules/S3_Unitary_Ansatz.ipynb] holds eleven
    cells, six of them code cells.  Its code defines no function: every
    statement is an import, an assignment, a call into code that lives outside
    the notebook, or a [for] loop of [print] calls.  The development below
    embeds each code cell as a program in a small monad whose only effects are
    the ones the cells have:

    - reading and writing the kernel's global names, the names of the
      imported modules and helper functions among them,
    - an outside call (import, function, method, attribute, operator, print),
      answered by the environment with a value or with an exception.

    What the environment answers is not fixed: theorems quantify over every
    execution, that is over every sequence of answers.  The cells are run
    once each, top to bottom, on a fresh kernel. *)

From Stdlib Require Import ZArith Lia Floats Ascii Eqdep_dec
  FunctionalExtensionality.
From stdpp Require Import base option list strings.

(* Python rounds the literal 1e-6 to the nearest binary64 value, as done here. *)
Set Warnings "-inexact-float".

Local Open Scope Z_scope.
Local Open Scope string_scope.
Local Open Scope list_scope.

(** ** Global names of the notebook

    The names the cells bind or read, as Python spells them: the two module
    aliases, the seven helper functions that the cells call by a bare name,
    and the names the cells assign.  Loop variables ([grouping], [ent]) are
    globals too: a [for] at the top level of a cell binds its target in the
    kernel's namespace.  [print] is a builtin and is not listed: it is bound
    in every kernel. *)
Module Name.
Inductive t : Set :=
  | np | tq
  | get_molecular_data | hf_occ | generate_QCC_gradient_groupings
  | get_QCC_entanglers | construct_QMF_ansatz | construct_QCC_ansatz
  | init_qcc_params
  | threshold | basis | trotter_steps
  | xyz_data | molecule | H | U_UCCSD | E | result
  | hf_reference | n_ents | ranked_entangler_groupings | grouping
  | entanglers | ent
  | U_MF | U_ENT | U_QCC | initial_vals.

Definition eq_dec (x y : t) : {x = y} + {x <> y}.
Proof. decide equality. Defined.

Definition to_string (x : t) : string :=
  match x with
  | np => "np" | tq => "tq"
  | get_molecular_data => "get_molecular_data" | hf_occ => "hf_occ"
  | generate_QCC_gradient_groupings => "generate_QCC_gradient_groupings"
  | get_QCC_entanglers => "get_QCC_entanglers"
  | construct_QMF_ansatz => "construct_QMF_ansatz"
  | construct_QCC_ansatz => "construct_QCC_ansatz"
  | init_qcc_params => "init_qcc_params"
  | threshold => "threshold" | basis => "basis"
  | trotter_steps => "trotter_steps"
  | xyz_data => "xyz_data" | molecule => "molecule" | H => "H"
  | U_UCCSD => "U_UCCSD" | E => "E" | result => "result"
  | hf_reference => "hf_reference" | n_ents => "n_ents"
  | ranked_entangler_groupings => "ranked_entangler_groupings"
  | grouping => "grouping" | entanglers => "entanglers" | ent => "ent"
  | U_MF => "U_MF" | U_ENT => "U_ENT" | U_QCC => "U_QCC"
  | initial_vals => "initial_vals"
  end.

(** The names the cells call without a module prefix and never bind
    themselves: only [from utility import *] can bind them. *)
Definition helpers : list t :=
  [ get_molecular_data; hf_occ; generate_QCC_gradient_groupings;
    get_QCC_entanglers; construct_QMF_ansatz; construct_QCC_ansatz;
    init_qcc_params ].
End Name.

#[global] Instance name_eq_dec : EqDecision Name.t := Name.eq_dec.

(** What an import statement binds a name to: a module, or a member of a
    module. *)
Inductive imported : Set :=
  | module_object (module : string)
  | member_of (module name : string).

(** The names a star import binds are the public names of the module.
    [exported names n]: the name [n] is among them. *)
Definition exported (names : list string) (n : string) : bool :=
  bool_decide (n ∈ names).
Arguments exported : simpl never.

(** ** The objects the libraries hand back

    The notebook never looks inside them; it stores them and passes them on.
    Each kind of object is an abstract type.  Python ints are [Z], Python
    floats are binary64 [float], Python lists are [list].  Keys of the
    initial-values dictionary are compared, so [TqVariable] carries a
    decidable equality (Python's [__eq__] and [__hash__] on tequila
    variables). *)
Class LibTypes : Type := {
  Geometry : Type;      (* get_molecular_data(..., xyz_format=True) *)
  Molecule : Type;      (* tq.quantumchemistry.Molecule(...) *)
  Hamiltonian : Type;   (* molecule.make_hamiltonian() *)
  OFOperator : Type;    (* H.to_openfermion() *)
  Circuit : Type;       (* ansatz circuits *)
  Objective : Type;     (* tq.ExpectationValue(...) *)
  TqVariable : Type;    (* elements of E.extract_variables() *)
  OptResult : Type;     (* tq.minimize(...) *)
  HFRef : Type;         (* hf_occ(...) *)
  Grouping : Type;      (* elements of the ranked groupings *)
  Item : Type;          (* grouping[1] *)
  Entangler : Type;     (* elements of get_QCC_entanglers(...) *)
  LibError : Type;      (* an exception raised outside the notebook *)
  TqVariable_eq_dec :: EqDecision TqVariable
}.

(** ** Python dictionaries

    Insertion ordered, as CPython 3.6 keeps them.  [d[k] = v] overwrites the
    value of a key already present (the position and the old key object stay)
    and appends otherwise. *)
Section Dict.
Context {K V : Type} `{EqDecision K}.

Definition dict : Type := list (K * V).

Fixpoint dict_set (d : dict) (k : K) (v : V) : dict :=
  match d with
  | [] => [(k, v)]
  | (k', v') :: d' =>
      if decide (k = k') then (k', v) :: d' else (k', v') :: dict_set d' k v
  end.

Fixpoint dict_get (d : dict) (k : K) : option V :=
  match d with
  | [] => None
  | (k', v') :: d' => if decide (k = k') then Some v' else dict_get d' k
  end.

Definition dict_keys (d : dict) : list K := map fst d.

(** The comprehension [{k: v0 for k in l}]. *)
Definition dict_comprehension (l : list K) (v0 : V) : dict :=
  fold_left (fun d k => dict_set d k v0) l [].
End Dict.
Arguments dict : clear implicits.
Arguments dict_comprehension : simpl never.

Section Script.
Context {LT : LibTypes}.

(** ** Outside calls

    [ty] names the type of the answer of a call.  It is a closed universe so
    that answers of two trace entries can be compared. *)
Inductive ty : Set :=
  | TUnit | TNames | TInt | TGeometry | TMolecule | THamiltonian | TOFOperator
  | TCircuit | TObjective | TVariables | TResult | THFRef | TGroupings
  | TItem | TEntanglers | TValues.

Definition ty_eq_dec (a b : ty) : {a = b} + {a <> b}.
Proof. decide equality. Defined.

Definition denote (t : ty) : Type :=
  match t with
  | TUnit => unit
  | TNames => list string
  | TInt => Z
  | TGeometry => Geometry
  | TMolecule => Molecule
  | THamiltonian => Hamiltonian
  | TOFOperator => OFOperator
  | TCircuit => Circuit
  | TObjective => Objective
  | TVariables => list TqVariable
  | TResult => OptResult
  | THFRef => HFRef
  | TGroupings => list Grouping
  | TItem => Item
  | TEntanglers => list Entangler
  | TValues => dict TqVariable float
  end.

(** What [print] is given in the notebook: a string literal, [grouping[1]],
    or an entangler. *)
Inductive printable : Type :=
  | PStr (s : string)
  | PItem (x : Item)
  | PEnt (e : Entangler).

(** One constructor per call site form of the notebook, named as the source
    names the callee; arguments carry the source's parameter names.  Looking
    up the attributes of a dotted callee ([tq.quantumchemistry.Molecule]) is
    part of the call. *)
Inductive libE : ty -> Type :=
  (* import numpy as np / import tequila as tq: loading the module *)
  | import_as (module alias : string) : libE TUnit
  (* from utility import *: loading the module; the answer is the list of
     the names the statement binds *)
  | import_star (module : string) : libE TNames
  | get_molecular_data (mol : string) (geometry : Z) (xyz_format : bool)
      : libE TGeometry
  | tq_quantumchemistry_Molecule (geometry : Geometry) (basis_set : string)
      : libE TMolecule
  | make_hamiltonian (self : Molecule) : libE THamiltonian
  | make_uccsd_ansatz (self : Molecule) (initial_amplitudes : string)
      (threshold : float) (trotter_steps : Z) : libE TCircuit
  | tq_ExpectationValue (H : Hamiltonian) (U : Circuit) : libE TObjective
  | extract_variables (self : Objective) : libE TVariables
  | tq_minimize (objective : Objective) (method : string)
      (initial_values : dict TqVariable float) (tol : float) : libE TResult
  (* the attributes molecule.n_orbitals and molecule.n_electrons *)
  | n_orbitals (self : Molecule) : libE TInt
  | n_electrons (self : Molecule) : libE TInt
  | hf_occ (n_spin_orbitals n_electrons : Z) : libE THFRef
  | to_openfermion (self : Hamiltonian) : libE TOFOperator
  | generate_QCC_gradient_groupings (H : OFOperator) (n_qubits : Z)
      (hf_occ : HFRef) (cutoff : float) : libE TGroupings
  (* grouping[i] *)
  | getitem (self : Grouping) (i : Z) : libE TItem
  | print (x : printable) : libE TUnit
  | get_QCC_entanglers (groupings : list Grouping) (M n_qubits : Z)
      : libE TEntanglers
  | construct_QMF_ansatz (n_qubits : Z) : libE TCircuit
  | construct_QCC_ansatz (entanglers : list Entangler) : libE TCircuit
  (* a + b on circuits *)
  | circuit_add (a b : Circuit) : libE TCircuit
  | init_qcc_params (hf_occ : HFRef) (variables : list TqVariable)
      : libE TValues.

(** The environment answers a call with an exception or with a value. *)
Definition answer (t : ty) : Type := (LibError + denote t)%type.

(** ** Exceptions and outcomes *)
Inductive exn : Type :=
  | NameError (name : string)       (* raised by the interpreter *)
  | LibraryError (e : LibError).    (* raised inside an outside call *)

Inductive outcome (R : Type) : Type :=
  | Returned (r : R)
  | Raised (e : exn).
Arguments Returned {R} r.
Arguments Raised {R} e.

(** ** Scripts: a program is a tree of outside calls

    After a call the program goes on with the answer, whether a value or an
    exception: what is done with an exception is up to the program.  The
    interpreter itself raises only [NameError], on reading an unbound
    name. *)
Inductive script (R : Type) : Type :=
  | Ret (r : R)
  | Raise (e : exn)
  | Vis (t : ty) (c : libE t) (k : answer t -> script R).
Arguments Ret {R} r.
Arguments Raise {R} e.
Arguments Vis {R t} c k.

Fixpoint sbind {A B} (p : script A) (f : A -> script B) : script B :=
  match p with
  | Ret a => f a
  | Raise e => Raise e
  | Vis c k => Vis c (fun r => sbind (k r) f)
  end.

(** ** The kernel's namespace *)
Definition type_of (x : Name.t) : Type :=
  match x with
  | Name.np | Name.tq
  | Name.get_molecular_data | Name.hf_occ
  | Name.generate_QCC_gradient_groupings | Name.get_QCC_entanglers
  | Name.construct_QMF_ansatz | Name.construct_QCC_ansatz
  | Name.init_qcc_params => imported
  | Name.threshold => float
  | Name.basis => string
  | Name.trotter_steps => Z
  | Name.xyz_data => Geometry
  | Name.molecule => Molecule
  | Name.H => Hamiltonian
  | Name.U_UCCSD => Circuit
  | Name.E => Objective
  | Name.result => OptResult
  | Name.hf_reference => HFRef
  | Name.n_ents => Z
  | Name.ranked_entangler_groupings => list Grouping
  | Name.grouping => Grouping
  | Name.entanglers => list Entangler
  | Name.ent => Entangler
  | Name.U_MF => Circuit
  | Name.U_ENT => Circuit
  | Name.U_QCC => Circuit
  | Name.initial_vals => dict TqVariable float
  end.

Definition Globals : Type := forall x : Name.t, option (type_of x).

Definition no_globals : Globals := fun _ => None.

Definition upd (x : Name.t) (v : type_of x) (g : Globals) : Globals :=
  fun y =>
    match Name.eq_dec x y with
    | left e => Some (eq_rect x type_of v y e)
    | right _ => g y
    end.

(** Binding [x] only when [b] holds. *)
Definition upd_if (b : bool) (x : Name.t) (v : type_of x) (g : Globals)
  : Globals :=
  fun y =>
    match Name.eq_dec x y with
    | left e => if b then Some (eq_rect x type_of v y e) else g y
    | right _ => g y
    end.

(** What [from module import *] binds, given the names the module exports:
    each helper name that is among them, to that member of the module.

    The module [utility] is not part of the source.  That it might also
    export a name the notebook binds itself ([np], [tq], or a variable a
    cell assigns) is not modelled: such names keep what the notebook binds
    them to. *)
Definition star_bindings (module : string) (names : list string)
  (g : Globals) : Globals :=
  upd_if (exported names "init_qcc_params") Name.init_qcc_params
    (member_of module "init_qcc_params")
  (upd_if (exported names "construct_QCC_ansatz") Name.construct_QCC_ansatz
    (member_of module "construct_QCC_ansatz")
  (upd_if (exported names "construct_QMF_ansatz") Name.construct_QMF_ansatz
    (member_of module "construct_QMF_ansatz")
  (upd_if (exported names "get_QCC_entanglers") Name.get_QCC_entanglers
    (member_of module "get_QCC_entanglers")
  (upd_if (exported names "generate_QCC_gradient_groupings")
    Name.generate_QCC_gradient_groupings
    (member_of module "generate_QCC_gradient_groupings")
  (upd_if (exported names "hf_occ") Name.hf_occ (member_of module "hf_occ")
  (upd_if (exported names "get_molecular_data") Name.get_molecular_data
    (member_of module "get_molecular_data") g)))))).

(** ** The monad of cell code: global state over scripts *)
Definition py (A : Type) : Type := Globals -> script (A * Globals).

Definition ret {A} (a : A) : py A := fun g => Ret (a, g).

Definition bind {A B} (m : py A) (f : A -> py B) : py B :=
  fun g => sbind (m g) (fun ag => f (fst ag) (snd ag)).

(** Reading a name: [NameError] when it is unbound. *)
Definition load_name (x : Name.t) : py (type_of x) :=
  fun g =>
    match g x with
    | Some v => Ret (v, g)
    | None => Raise (NameError (Name.to_string x))
    end.

(** [x = v] *)
Definition store_name (x : Name.t) (v : type_of x) : py unit :=
  fun g => Ret (tt, upd x v g).

(** A call that stands in no [try] statement: an exception raised by the
    callee is raised at the call. *)
Definition call {t} (c : libE t) : py (denote t) :=
  fun g =>
    Vis c (fun r =>
             match r with
             | inl e => Raise (LibraryError e)
             | inr v => Ret (v, g)
             end).

(** The bindings of a star import. *)
Definition bind_star (module : string) (names : list string) : py unit :=
  fun g => Ret (tt, star_bindings module names g).

Definition pass : py unit := ret tt.
End Script.

Arguments Returned {LT R} r.
Arguments Raised {LT R} e.
Arguments Ret {LT R} r.
Arguments Raise {LT R} e.
Arguments Vis {LT R t} c k.

#[global] Instance py_ret {LT : LibTypes} : MRet py := @ret LT.
#[global] Instance py_bind {LT : LibTypes} : MBind py :=
  fun A B f m => bind m f.

(** [x ::= e] is the assignment [x = e]. *)
Notation "x ::= e" := (mbind (store_name x) e)
  (at level 90, e at level 89, no associativity).

Section Notebook.
Context {LT : LibTypes}.

(** ** The [for] statement over a list

    [for x in l: body] binds the global [x] to each element in turn and runs
    [body].  The iterable has been evaluated once, before the loop. *)
Fixpoint for_in (x : Name.t) (l : list (type_of x)) (body : py unit)
  : py unit :=
  match l with
  | [] => pass
  | v :: l' => store_name x v;; body;; for_in x l' body
  end.

(** ** The code cells, in the order of the file

    A call reads the name of its callee first -- the bare name of a helper,
    or the alias [tq] of a dotted callee -- then evaluates its arguments left
    to right, then calls.  A method or attribute of an object reads the name
    of the object; an attribute such as [molecule.n_orbitals] is a call of
    its own (a tequila property), and its answer is a Python int. *)

(** Lines 18-22. *)
Definition cell_1 : py unit :=
  Name.np ::= (call (import_as "numpy" "np");; mret (module_object "numpy"));;
  Name.tq ::=
    (call (import_as "tequila" "tq");; mret (module_object "tequila"));;
  (names ← call (import_star "utility"); bind_star "utility" names);;
  Name.threshold ::= mret 1e-6%float;;
  Name.basis ::= mret "sto-3g".

(** Line 44. *)
Definition cell_3 : py unit :=
  Name.trotter_steps ::= mret 1.

(** Lines 92-102: the UCC VQE. *)
Definition cell_5 : py unit :=
  Name.xyz_data ::=
    (load_name Name.get_molecular_data;;
     call (get_molecular_data "h2" 2 true));;
  Name.molecule ::=
    (load_name Name.tq;;
     geometry ← load_name Name.xyz_data;
     basis_set ← load_name Name.basis;
     call (tq_quantumchemistry_Molecule geometry basis_set));;
  Name.H ::=
    (self ← load_name Name.molecule;
     call (make_hamiltonian self));;
  Name.U_UCCSD ::=
    (self ← load_name Name.molecule;
     threshold ← load_name Name.threshold;
     trotter_steps ← load_name Name.trotter_steps;
     call (make_uccsd_ansatz self "mp2" threshold trotter_steps));;
  Name.E ::=
    (load_name Name.tq;;
     H ← load_name Name.H;
     U ← load_name Name.U_UCCSD;
     call (tq_ExpectationValue H U));;
  Name.result ::=
    (load_name Name.tq;;
     objective ← load_name Name.E;
     self ← load_name Name.E;
     variables ← call (extract_variables self);
     call (tq_minimize objective "BFGS"
             (dict_comprehension variables 0.0%float) 1e-6%float)).

(** Lines 132-157: the QCC entangler ranking.  The second literal printed
    starts with a newline. *)
Definition cell_7 : py unit :=
  Name.xyz_data ::=
    (load_name Name.get_molecular_data;;
     call (get_molecular_data "h2" 2 true));;
  Name.molecule ::=
    (load_name Name.tq;;
     geometry ← load_name Name.xyz_data;
     basis_set ← load_name Name.basis;
     call (tq_quantumchemistry_Molecule geometry basis_set));;
  Name.hf_reference ::=
    (load_name Name.hf_occ;;
     self ← load_name Name.molecule;
     n ← call (n_orbitals self);
     self' ← load_name Name.molecule;
     n_el ← call (n_electrons self');
     call (hf_occ (2 * n) n_el));;
  Name.H ::=
    (self ← load_name Name.molecule;
     call (make_hamiltonian self));;
  Name.n_ents ::= mret 1;;
  Name.ranked_entangler_groupings ::=
    (load_name Name.generate_QCC_gradient_groupings;;
     H ← load_name Name.H;
     H_of ← call (to_openfermion H);
     self ← load_name Name.molecule;
     n ← call (n_orbitals self);
     hf_reference ← load_name Name.hf_reference;
     cutoff ← load_name Name.threshold;
     call (generate_QCC_gradient_groupings H_of (2 * n) hf_reference cutoff));;
  call (print (PStr "Grouping gradient magnitudes:"));;
  (groupings ← load_name Name.ranked_entangler_groupings;
   for_in Name.grouping groupings
     (grouping ← load_name Name.grouping;
      magnitude ← call (getitem grouping 1);
      call (print (PItem magnitude))));;
  Name.entanglers ::=
    (load_name Name.get_QCC_entanglers;;
     groupings ← load_name Name.ranked_entangler_groupings;
     n_ents ← load_name Name.n_ents;
     self ← load_name Name.molecule;
     n ← call (n_orbitals self);
     call (get_QCC_entanglers groupings n_ents (2 * n)));;
  call (print (PStr (String "010"%char "Generated entanglers:")));;
  (entanglers ← load_name Name.entanglers;
   for_in Name.ent entanglers
     (ent ← load_name Name.ent;
      call (print (PEnt ent)))).

(** Lines 206-218: the QCC VQE. *)
Definition cell_9 : py unit :=
  Name.U_MF ::=
    (load_name Name.construct_QMF_ansatz;;
     self ← load_name Name.molecule;
     n ← call (n_orbitals self);
     call (construct_QMF_ansatz (2 * n)));;
  Name.U_ENT ::=
    (load_name Name.construct_QCC_ansatz;;
     entanglers ← load_name Name.entanglers;
     call (construct_QCC_ansatz entanglers));;
  Name.U_QCC ::=
    (U_MF ← load_name Name.U_MF;
     U_ENT ← load_name Name.U_ENT;
     call (circuit_add U_MF U_ENT));;
  Name.E ::=
    (load_name Name.tq;;
     H ← load_name Name.H;
     U ← load_name Name.U_QCC;
     call (tq_ExpectationValue H U));;
  Name.initial_vals ::=
    (load_name Name.init_qcc_params;;
     hf_reference ← load_name Name.hf_reference;
     self ← load_name Name.E;
     variables ← call (extract_variables self);
     call (init_qcc_params hf_reference variables));;
  Name.result ::=
    (load_name Name.tq;;
     objective ← load_name Name.E;
     initial_vals ← load_name Name.initial_vals;
     call (tq_minimize objective "BFGS" initial_vals 1e-6%float)).

(** Line 226: an empty code cell. *)
Definition cell_10 : py unit := pass.

(** ** The notebook: eleven cells *)
Inductive cell_type : Set := markdown | code.

Record cell : Type := { ctype : cell_type; source : py unit }.

Definition md : cell := {| ctype := markdown; source := pass |}.
Definition code_cell (p : py unit) : cell := {| ctype := code; source := p |}.

Definition notebook : list cell :=
  [ md; code_cell cell_1;
    md; code_cell cell_3;
    md; code_cell cell_5;
    md; code_cell cell_7;
    md; code_cell cell_9;
    code_cell cell_10 ].

(** ** Executions

    A trace entry is an outside call with the environment's answer. *)
Inductive io : Type :=
  | IO (t : ty) (c : libE t) (r : answer t).
Arguments IO {t} c r.

Definition trace : Type := list io.

(** [exec p tr o]: the script [p] can run with trace [tr] and outcome
    [o]. *)
Fixpoint exec {R} (p : script R) (tr : trace) (o : outcome R) : Prop :=
  match p with
  | Ret r => tr = [] /\ o = Returned r
  | Raise e => tr = [] /\ o = Raised e
  | Vis c k => exists r tr', tr = IO c r :: tr' /\ exec (k r) tr' o
  end.

(** Running the cells top to bottom on one kernel.  The result lists one
    trace per cell reached (empty for markdown); a cell that raises stops
    the run. *)
Fixpoint exec_cells (cs : list cell) (g : Globals) (trs : list trace)
  (o : outcome Globals) : Prop :=
  match cs with
  | [] => trs = [] /\ o = Returned g
  | c :: cs' =>
      match ctype c with
      | markdown => exists trs', trs = [] :: trs' /\ exec_cells cs' g trs' o
      | code =>
          (exists tr e, trs = [tr] /\ exec (source c g) tr (Raised e)
                        /\ o = Raised e) \/
          (exists tr g' trs', trs = tr :: trs'
                        /\ exec (source c g) tr (Returned (tt, g'))
                        /\ exec_cells cs' g' trs' o)
      end
  end.

(** An execution of the whole notebook on a fresh kernel. *)
Definition execution (trs : list trace) (o : outcome Globals) : Prop :=
  exec_cells notebook no_globals trs o.

(** ** Running against a given environment

    A handler answers each call and may keep state of its own. *)
Definition handler (S : Type) : Type :=
  forall t, libE t -> S -> answer t * S.

Fixpoint run {R S} (h : handler S) (p : script R) (s : S)
  : trace * outcome R * S :=
  match p with
  | Ret r => ([], Returned r, s)
  | Raise e => ([], Raised e, s)
  | Vis c k =>
      let '(r, s') := h _ c s in
      let '(tr, o, s'') := run h (k r) s' in
      (IO c r :: tr, o, s'')
  end.

Fixpoint run_cells {S} (h : handler S) (cs : list cell) (g : Globals) (s : S)
  : list trace * outcome Globals * S :=
  match cs with
  | [] => ([], Returned g, s)
  | c :: cs' =>
      match ctype c with
      | markdown =>
          let '(trs, o, s') := run_cells h cs' g s in ([] :: trs, o, s')
      | code =>
          match run h (source c g) s with
          | (tr, Raised e, s') => ([tr], Raised e, s')
          | (tr, Returned (_, g'), s') =>
              let '(trs, o, s'') := run_cells h cs' g' s' in
              (tr :: trs, o, s'')
          end
      end
  end.

Definition run_notebook {S} (h : handler S) (s : S)
  : list trace * outcome Globals * S :=
  run_cells h notebook no_globals s.

End Notebook.

Arguments IO {LT t} c r.

(** * What is observed of an execution

    The definitions the statements below are written with: the trace of each
    cell in terms of the answers it got, selections of calls from a trace,
    and the predicates on traces and namespaces. *)
Section Observations.
Context {LT : LibTypes}.

(** The answer of a trace entry, with its type. *)
Definition answer_of (x : io) : {t : ty & answer t} :=
  match x with IO c r => existT _ r end.

(** The exception a trace entry was answered with, if any. *)
Definition raised (x : io) : option LibError :=
  match x with
  | IO _ (inl e) => Some e
  | IO _ (inr _) => None
  end.

(** A trace entry that was answered with a value. *)
Definition answered (x : io) : Prop := raised x = None.

(** How a run can end, read off its trace: either every call was answered
    with a value, or the last call raised and its exception is the outcome. *)
Definition ends_with {R} (tr : trace) (o : outcome R) : Prop :=
  match o with
  | Raised (LibraryError e) =>
      exists tr0 t (c : libE t),
        tr = tr0 ++ [IO c (inl e)] /\ Forall answered tr0
  | _ => Forall answered tr
  end.

(** ** A program logic for "every call, in every execution"

    [safe P N Q p]: whatever the environment answers, every trace entry of
    [p] satisfies [P]; an exception a call is answered with is raised at the
    call, unchanged: [p] handles none; the only exceptions [p] raises itself
    are [NameError]s for names in [N]; and a returned value satisfies [Q]. *)
Fixpoint safe {R} (P : io -> Prop) (N : string -> Prop) (Q : R -> Prop)
  (p : script R) : Prop :=
  match p with
  | Ret r => Q r
  | Raise (NameError n) => N n
  | Raise (LibraryError _) => False
  | Vis c k =>
      forall r, P (IO c r) /\
                match r with
                | inl e => k r = Raise (LibraryError e)
                | inr _ => safe P N Q (k r)
                end
  end.

(** ** Completed runs, cell by cell

    In a completed run every call was answered with a value. *)

(** A call that was answered with a value. *)
Definition ok {t} (c : libE t) (v : denote t) : io := IO c (inr v).

(** ** The answers a completed run got, cell by cell *)
Record ucc_answers : Type := {
  ucc_xyz_data : Geometry;
  ucc_molecule : Molecule;
  ucc_H : Hamiltonian;
  ucc_U_UCCSD : Circuit;
  ucc_E : Objective;
  ucc_variables : list TqVariable;
  ucc_result : OptResult
}.

Record ranking_answers : Type := {
  rk_xyz_data : Geometry;
  rk_molecule : Molecule;
  rk_n_orbitals_hf : Z;          (* molecule.n_orbitals, for hf_occ *)
  rk_n_electrons : Z;
  rk_hf_reference : HFRef;
  rk_H : Hamiltonian;
  rk_H_of : OFOperator;
  rk_n_orbitals_rank : Z;        (* molecule.n_orbitals, for the ranking *)
  rk_groupings : list Grouping;
  rk_magnitudes : list Item;     (* grouping[1], one per grouping *)
  rk_n_orbitals_ent : Z;         (* molecule.n_orbitals, for the entanglers *)
  rk_entanglers : list Entangler
}.

Record vqe_answers : Type := {
  vq_n_orbitals : Z;
  vq_U_MF : Circuit;
  vq_U_ENT : Circuit;
  vq_U_QCC : Circuit;
  vq_E : Objective;
  vq_variables : list TqVariable;
  vq_initial_vals : dict TqVariable float;
  vq_result : OptResult
}.

(** ** The trace of each cell, given the answers *)

(** The import cell; [names] is what the star import binds. *)
Definition imports_trace (names : list string) : trace :=
  [ ok (import_as "numpy" "np") tt;
    ok (import_as "tequila" "tq") tt;
    ok (import_star "utility") names ].

Definition ucc_trace (a : ucc_answers) : trace :=
  [ ok (get_molecular_data "h2" 2 true) (ucc_xyz_data a);
    ok (tq_quantumchemistry_Molecule (ucc_xyz_data a) "sto-3g")
       (ucc_molecule a);
    ok (make_hamiltonian (ucc_molecule a)) (ucc_H a);
    ok (make_uccsd_ansatz (ucc_molecule a) "mp2" 1e-6%float 1)
       (ucc_U_UCCSD a);
    ok (tq_ExpectationValue (ucc_H a) (ucc_U_UCCSD a)) (ucc_E a);
    ok (extract_variables (ucc_E a)) (ucc_variables a);
    ok (tq_minimize (ucc_E a) "BFGS"
          (dict_comprehension (ucc_variables a) 0.0%float) 1e-6%float)
       (ucc_result a) ].

(** The loop [for grouping in ...: print(grouping[1])]. *)
Definition magnitudes_trace (gs : list Grouping) (xs : list Item) : trace :=
  flat_map (fun gx => [ ok (getitem gx.1 1) gx.2; ok (print (PItem gx.2)) tt ])
           (zip gs xs).

(** The loop [for ent in entanglers: print(ent)]. *)
Definition entanglers_trace (es : list Entangler) : trace :=
  map (fun e => ok (print (PEnt e)) tt) es.

(** The ranking cell: the calls up to the first loop, that loop, the calls
    up to the second loop, that loop. *)
Definition ranking_head (a : ranking_answers) : trace :=
  [ ok (get_molecular_data "h2" 2 true) (rk_xyz_data a);
    ok (tq_quantumchemistry_Molecule (rk_xyz_data a) "sto-3g")
       (rk_molecule a);
    ok (n_orbitals (rk_molecule a)) (rk_n_orbitals_hf a);
    ok (n_electrons (rk_molecule a)) (rk_n_electrons a);
    ok (hf_occ (2 * rk_n_orbitals_hf a) (rk_n_electrons a))
       (rk_hf_reference a);
    ok (make_hamiltonian (rk_molecule a)) (rk_H a);
    ok (to_openfermion (rk_H a)) (rk_H_of a);
    ok (n_orbitals (rk_molecule a)) (rk_n_orbitals_rank a);
    ok (generate_QCC_gradient_groupings (rk_H_of a)
          (2 * rk_n_orbitals_rank a) (rk_hf_reference a) 1e-6%float)
       (rk_groupings a);
    ok (print (PStr "Grouping gradient magnitudes:")) tt ].

Definition ranking_tail (a : ranking_answers) : trace :=
  [ ok (n_orbitals (rk_molecule a)) (rk_n_orbitals_ent a);
    ok (get_QCC_entanglers (rk_groupings a) 1 (2 * rk_n_orbitals_ent a))
       (rk_entanglers a);
    ok (print (PStr (String "010"%char "Generated entanglers:"))) tt ].

Definition ranking_trace (a : ranking_answers) : trace :=
  ranking_head a
  ++ magnitudes_trace (rk_groupings a) (rk_magnitudes a)
  ++ ranking_tail a
  ++ entanglers_trace (rk_entanglers a).

Definition vqe_trace (r : ranking_answers) (a : vqe_answers) : trace :=
  [ ok (n_orbitals (rk_molecule r)) (vq_n_orbitals a);
    ok (construct_QMF_ansatz (2 * vq_n_orbitals a)) (vq_U_MF a);
    ok (construct_QCC_ansatz (rk_entanglers r)) (vq_U_ENT a);
    ok (circuit_add (vq_U_MF a) (vq_U_ENT a)) (vq_U_QCC a);
    ok (tq_ExpectationValue (rk_H r) (vq_U_QCC a)) (vq_E a);
    ok (extract_variables (vq_E a)) (vq_variables a);
    ok (init_qcc_params (rk_hf_reference r) (vq_variables a))
       (vq_initial_vals a);
    ok (tq_minimize (vq_E a) "BFGS" (vq_initial_vals a) 1e-6%float)
       (vq_result a) ].

(** The traces of a completed run, one per cell. *)
Definition completed_traces (names : list string) (u : ucc_answers)
  (r : ranking_answers) (v : vqe_answers) : list trace :=
  [ []; imports_trace names; []; []; []; ucc_trace u; []; ranking_trace r;
    []; vqe_trace r v; [] ].

(** The star import bound every helper name. *)
Definition helpers_exported (names : list string) : Prop :=
  Forall (fun h => exported names (Name.to_string h) = true) Name.helpers.

(** ** The two loops of the ranking cell *)

(** The namespace after [for x in l]: [x] was bound to each element. *)
Definition bind_each (x : Name.t) (l : list (type_of x)) (g : Globals)
  : Globals :=
  fold_left (fun g v => upd x v g) l g.

(** The bodies of the two loops. *)
Definition print_magnitude : py unit :=
  grouping ← load_name Name.grouping;
  magnitude ← call (getitem grouping 1);
  call (print (PItem magnitude)).

Definition print_entangler : py unit :=
  ent ← load_name Name.ent;
  call (print (PEnt ent)).

(** ** Every execution, completed or not *)

(** The constants the notebook fixes, wherever a call takes them. *)
Definition fixed_constants (x : io) : Prop :=
  match x with
  | IO c _ =>
      match c with
      | tq_quantumchemistry_Molecule _ basis_set => basis_set = "sto-3g"
      | make_uccsd_ansatz _ _ threshold trotter_steps =>
          threshold = 1e-6%float /\ trotter_steps = 1
      | generate_QCC_gradient_groupings _ _ _ cutoff => cutoff = 1e-6%float
      | get_QCC_entanglers _ M _ => M = 1
      | _ => True
      end
  end.

(** A helper name that the star import did not bind. *)
Definition unexported (names : list string) (n : string) : Prop :=
  n ∈ map Name.to_string Name.helpers /\ exported names n = false.

(** ** The pipeline of the two workflows *)

(** The five stages of the spec's linear script. *)
Inductive stage : Set :=
  | Configure          (* (1) molecule geometry and basis *)
  | BuildHamiltonian   (* (2) *)
  | BuildAnsatz        (* (3) *)
  | WrapObjective      (* (4) *)
  | Minimize.          (* (5) *)

#[global] Instance stage_eq_dec : EqDecision stage.
Proof. solve_decision. Defined.

(** The stage a call belongs to; attribute reads, the ranking helpers and
    prints belong to none. *)
Definition stage_of (x : io) : option stage :=
  match x with
  | IO c _ =>
      match c with
      | get_molecular_data _ _ _ => Some Configure
      | tq_quantumchemistry_Molecule _ _ => Some Configure
      | make_hamiltonian _ => Some BuildHamiltonian
      | make_uccsd_ansatz _ _ _ _ => Some BuildAnsatz
      | construct_QMF_ansatz _ => Some BuildAnsatz
      | construct_QCC_ansatz _ => Some BuildAnsatz
      | circuit_add _ _ => Some BuildAnsatz
      | tq_ExpectationValue _ _ => Some WrapObjective
      | tq_minimize _ _ _ _ => Some Minimize
      | _ => None
      end
  end.

Definition is_stage_call (x : io) : bool :=
  match stage_of x with Some _ => true | None => false end.

(** The calls of a trace that belong to a stage, and their stages. *)
Definition stage_calls (tr : trace) : trace := List.filter is_stage_call tr.
Definition stages (tr : trace) : list stage := omap stage_of tr.

(** Consecutive calls of one stage count as that stage once. *)
Fixpoint merge_repeats (l : list stage) : list stage :=
  match l with
  | [] => []
  | s :: l' =>
      match l' with
      | s' :: _ => if decide (s = s') then merge_repeats l'
                   else s :: merge_repeats l'
      | [] => [s]
      end
  end.

(** The UCC workflow is the sixth cell; the QCC workflow is the ranking cell
    followed by the QCC VQE cell. *)
Definition cell_trace (trs : list trace) (i : nat) : trace :=
  default [] (trs !! i).

Definition ucc_workflow (trs : list trace) : trace := cell_trace trs 5.
Definition qcc_workflow (trs : list trace) : trace :=
  cell_trace trs 7 ++ cell_trace trs 9.

Definition ucc_pipeline (u : ucc_answers) : trace :=
  [ ok (get_molecular_data "h2" 2 true) (ucc_xyz_data u);
    ok (tq_quantumchemistry_Molecule (ucc_xyz_data u) "sto-3g")
       (ucc_molecule u);
    ok (make_hamiltonian (ucc_molecule u)) (ucc_H u);
    ok (make_uccsd_ansatz (ucc_molecule u) "mp2" 1e-6%float 1)
       (ucc_U_UCCSD u);
    ok (tq_ExpectationValue (ucc_H u) (ucc_U_UCCSD u)) (ucc_E u);
    ok (tq_minimize (ucc_E u) "BFGS"
          (dict_comprehension (ucc_variables u) 0.0%float) 1e-6%float)
       (ucc_result u) ].

Definition qcc_pipeline (r : ranking_answers) (v : vqe_answers) : trace :=
  [ ok (get_molecular_data "h2" 2 true) (rk_xyz_data r);
    ok (tq_quantumchemistry_Molecule (rk_xyz_data r) "sto-3g")
       (rk_molecule r);
    ok (make_hamiltonian (rk_molecule r)) (rk_H r);
    ok (construct_QMF_ansatz (2 * vq_n_orbitals v)) (vq_U_MF v);
    ok (construct_QCC_ansatz (rk_entanglers r)) (vq_U_ENT v);
    ok (circuit_add (vq_U_MF v) (vq_U_ENT v)) (vq_U_QCC v);
    ok (tq_ExpectationValue (rk_H r) (vq_U_QCC v)) (vq_E v);
    ok (tq_minimize (vq_E v) "BFGS" (vq_initial_vals v) 1e-6%float)
       (vq_result v) ].

(** ** The UCC call to the minimizer *)

(** The arguments of a [tq.minimize] call. *)
Definition as_minimize (x : io)
  : option (Objective * string * dict TqVariable float * float) :=
  match x with
  | IO c _ =>
      match c with
      | tq_minimize objective method initial_values tol =>
          Some (objective, method, initial_values, tol)
      | _ => None
      end
  end.

(** What the UCC cell hands to [tq.minimize], whenever it gets that far. *)
Definition ucc_minimize_arguments (tr : trace) : Prop :=
  forall x objective method initial_values tol,
    x ∈ tr ->
    as_minimize x = Some (objective, method, initial_values, tol) ->
    method = "BFGS" /\ tol = 1e-6%float /\
    exists variables,
      ok (extract_variables objective) variables ∈ tr /\
      initial_values = dict_comprehension variables 0.0%float.

(** ** Selections of calls *)

Definition is_ansatz_call (x : io) : bool :=
  match x with
  | IO c _ =>
      match c with
      | make_uccsd_ansatz _ _ _ _ | construct_QMF_ansatz _
      | construct_QCC_ansatz _ | circuit_add _ _ => true
      | _ => false
      end
  end.

Definition is_vqe_call (x : io) : bool :=
  match x with
  | IO c _ =>
      match c with
      | tq_ExpectationValue _ _ | tq_minimize _ _ _ _ => true
      | _ => false
      end
  end.

Definition is_hamiltonian_call (x : io) : bool :=
  match x with
  | IO c _ => match c with make_hamiltonian _ => true | _ => false end
  end.

Definition is_ranking_call (x : io) : bool :=
  match x with
  | IO c _ =>
      match c with
      | generate_QCC_gradient_groupings _ _ _ _ => true
      | _ => false
      end
  end.

(** The calls that build the molecule and its Hamiltonian. *)
Definition is_construction_call (x : io) : bool :=
  match x with
  | IO c _ =>
      match c with
      | get_molecular_data _ _ _ | tq_quantumchemistry_Molecule _ _
      | make_hamiltonian _ => true
      | _ => false
      end
  end.

Definition construction (xyz : Geometry) (m : Molecule) (h : Hamiltonian)
  : trace :=
  [ ok (get_molecular_data "h2" 2 true) xyz;
    ok (tq_quantumchemistry_Molecule xyz "sto-3g") m;
    ok (make_hamiltonian m) h ].


(** An environment without state: the answer depends on the call alone. *)
Definition answered_by (lib : forall t, libE t -> answer t) (x : io) : Prop :=
  match x with IO c r => r = lib _ c end.

(** ** Where the called code comes from *)

(** The computational hard parts the spec lists. *)
Inductive hard_part : Set :=
  | HamiltonianConstruction
  | Trotterization
  | EntanglerRanking
  | ExpectationValueEvaluation
  | ClassicalOptimization.

Definition hard_part_of (x : io) : option hard_part :=
  match x with
  | IO c _ =>
      match c with
      | make_hamiltonian _ => Some HamiltonianConstruction
      | make_uccsd_ansatz _ _ _ _ => Some Trotterization
      | generate_QCC_gradient_groupings _ _ _ _ => Some EntanglerRanking
      | tq_ExpectationValue _ _ => Some ExpectationValueEvaluation
      | tq_minimize _ _ _ _ => Some ClassicalOptimization
      | _ => None
      end
  end.

Definition is_hard_part (x : io) : bool :=
  match hard_part_of x with Some _ => true | None => false end.

(** How the source names what it calls: a dotted path from a module alias
    ([tq.minimize]), a bare name ([hf_occ]), or a member (method, attribute,
    operator) of the object that an earlier callee returned. *)
Inductive callee : Set :=
  | Dotted (root : string) (path : list string)
  | Bare (name : string)
  | Member (maker : callee) (member : string)
  | ImportStatement.

Definition Molecule_callee : callee :=
  Dotted "tq" ["quantumchemistry"; "Molecule"].

Definition callee_of (x : io) : callee :=
  match x with
  | IO c _ =>
      match c with
      | import_as _ _ | import_star _ => ImportStatement
      | get_molecular_data _ _ _ => Bare "get_molecular_data"
      | tq_quantumchemistry_Molecule _ _ => Molecule_callee
      | make_hamiltonian _ => Member Molecule_callee "make_hamiltonian"
      | make_uccsd_ansatz _ _ _ _ => Member Molecule_callee "make_uccsd_ansatz"
      | tq_ExpectationValue _ _ => Dotted "tq" ["ExpectationValue"]
      | extract_variables _ =>
          Member (Dotted "tq" ["ExpectationValue"]) "extract_variables"
      | tq_minimize _ _ _ _ => Dotted "tq" ["minimize"]
      | n_orbitals _ => Member Molecule_callee "n_orbitals"
      | n_electrons _ => Member Molecule_callee "n_electrons"
      | hf_occ _ _ => Bare "hf_occ"
      | to_openfermion _ =>
          Member (Member Molecule_callee "make_hamiltonian") "to_openfermion"
      | generate_QCC_gradient_groupings _ _ _ _ =>
          Bare "generate_QCC_gradient_groupings"
      | getitem _ _ =>
          Member (Bare "generate_QCC_gradient_groupings") "__getitem__"
      | print _ => Bare "print"
      | get_QCC_entanglers _ _ _ => Bare "get_QCC_entanglers"
      | construct_QMF_ansatz _ => Bare "construct_QMF_ansatz"
      | construct_QCC_ansatz _ => Bare "construct_QCC_ansatz"
      | circuit_add _ _ => Member (Bare "construct_QMF_ansatz") "__add__"
      | init_qcc_params _ _ => Bare "init_qcc_params"
      end
  end.

(** The import statements a run executed. *)
Inductive import_stmt : Set :=
  | ImportAs (module alias : string)
  | ImportStar (module : string).

Definition as_import (x : io) : option import_stmt :=
  match x with
  | IO c (inr _) =>
      match c with
      | import_as module alias => Some (ImportAs module alias)
      | import_star module => Some (ImportStar module)
      | _ => None
      end
  | IO _ (inl _) => None
  end.

Definition imports_of (tr : trace) : list import_stmt := omap as_import tr.

(** The module an alias stands for: the last [import ... as alias]. *)
Fixpoint alias_module (imps : list import_stmt) (alias : string)
  : option string :=
  match imps with
  | [] => None
  | ImportAs m a :: rest =>
      match alias_module rest alias with
      | Some m' => Some m'
      | None => if decide (a = alias) then Some m else None
      end
  | ImportStar _ :: rest => alias_module rest alias
  end.

(** The star-imported modules, in order. *)
Definition star_modules (imps : list import_stmt) : list string :=
  omap (fun i => match i with ImportStar m => Some m | _ => None end) imps.

Definition builtins : list string := ["print"].

(** The module that provides a callee.  The notebook defines no function
    and assigns none of the names it calls, so a bare name that is not a
    builtin was bound by a star import -- here there is one, and it
    provides the name.  A member is provided with the object it belongs
    to. *)
Fixpoint provider (imps : list import_stmt) (c : callee) : option string :=
  match c with
  | Dotted root _ => alias_module imps root
  | Bare name =>
      if decide (name ∈ builtins) then Some "builtins"
      else last (star_modules imps)
  | Member maker _ => provider imps maker
  | ImportStatement => None
  end.

(** The libraries the spec names as doing the hard parts. *)
Definition claimed_libraries : list string :=
  ["tequila"; "openfermion"; "scipy"].

(** The spec's sentence: each hard part is a call into one of them. *)
Definition hard_parts_in (libs : list string) (trs : list trace) : Prop :=
  forall x, x ∈ concat trs -> is_hard_part x = true ->
    exists m, provider (imports_of (concat trs)) (callee_of x) = Some m
              /\ m ∈ libs.

(** ** Which cells hold the logic *)





(** ** The namespace after each cell

    The bindings of the import cell and the assignments of the other code
    cells, in the order they are made, for the answers the run got. *)
Definition import_bindings (names : list string) (g : Globals) : Globals :=
  upd Name.basis "sto-3g"
  (upd Name.threshold 1e-6%float
  (star_bindings "utility" names
  (upd Name.tq (module_object "tequila")
  (upd Name.np (module_object "numpy") g)))).

Definition globals_after_imports (names : list string) : Globals :=
  import_bindings names no_globals.

Definition globals_after_setup (names : list string) : Globals :=
  upd Name.trotter_steps 1 (globals_after_imports names).

Definition globals_after_ucc (names : list string) (u : ucc_answers)
  : Globals :=
  upd Name.result (ucc_result u)
  (upd Name.E (ucc_E u)
  (upd Name.U_UCCSD (ucc_U_UCCSD u)
  (upd Name.H (ucc_H u)
  (upd Name.molecule (ucc_molecule u)
  (upd Name.xyz_data (ucc_xyz_data u)
     (globals_after_setup names)))))).

Definition globals_after_ranking (names : list string) (u : ucc_answers)
  (r : ranking_answers) : Globals :=
  bind_each Name.ent (rk_entanglers r)
  (upd Name.entanglers (rk_entanglers r)
  (bind_each Name.grouping (rk_groupings r)
  (upd Name.ranked_entangler_groupings (rk_groupings r)
  (upd Name.n_ents 1
  (upd Name.H (rk_H r)
  (upd Name.hf_reference (rk_hf_reference r)
  (upd Name.molecule (rk_molecule r)
  (upd Name.xyz_data (rk_xyz_data r)
     (globals_after_ucc names u))))))))).

(** The namespace a completed run leaves. *)
Definition final_globals (names : list string) (u : ucc_answers)
  (r : ranking_answers) (v : vqe_answers) : Globals :=
  upd Name.result (vq_result v)
  (upd Name.initial_vals (vq_initial_vals v)
  (upd Name.E (vq_E v)
  (upd Name.U_QCC (vq_U_QCC v)
  (upd Name.U_ENT (vq_U_ENT v)
  (upd Name.U_MF (vq_U_MF v)
     (globals_after_ranking names u r)))))).

(** ** What is printed, and what is indexed *)

(** The argument of a [print] call. *)
Definition printed (x : io) : option printable :=
  match x with
  | IO c _ => match c with print p => Some p | _ => None end
  end.

(** An answered [grouping[i]]: the grouping, the index, the item. *)
Definition as_getitem (x : io) : option (Grouping * Z * Item) :=
  match x with
  | IO c r =>
      match c in libE t return answer t -> option (Grouping * Z * Item) with
      | getitem self i =>
          fun r => match r with inr item => Some (self, i, item)
                              | inl _ => None end
      | _ => fun _ => None
      end r
  end.

Definition is_entangler_call (x : io) : bool :=
  match x with
  | IO c _ => match c with get_QCC_entanglers _ _ _ => true | _ => false end
  end.

(** ** Qubit counts *)

(** An answered read of [molecule.n_orbitals]: the molecule and the value. *)
Definition as_n_orbitals (x : io) : option (Molecule * Z) :=
  match x with
  | IO c r =>
      match c in libE t return answer t -> option (Molecule * Z) with
      | n_orbitals self =>
          fun r => match r with inr n => Some (self, n) | inl _ => None end
      | _ => fun _ => None
      end r
  end.

(** The number of qubits (spin orbitals) a call is given. *)
Definition qubit_count (x : io) : option Z :=
  match x with
  | IO c _ =>
      match c with
      | hf_occ n_spin_orbitals _ => Some n_spin_orbitals
      | generate_QCC_gradient_groupings _ n_qubits _ _ => Some n_qubits
      | get_QCC_entanglers _ _ n_qubits => Some n_qubits
      | construct_QMF_ansatz n_qubits => Some n_qubits
      | _ => None
      end
  end.

(** The calls that read [molecule.n_orbitals] or are given a number of
    qubits, and the calls that make a molecule. *)
Definition counts_qubits (x : io) : bool :=
  match x with
  | IO c _ =>
      match c with
      | n_orbitals _ | hf_occ _ _ | generate_QCC_gradient_groupings _ _ _ _
      | get_QCC_entanglers _ _ _ | construct_QMF_ansatz _ => true
      | _ => false
      end
  end.

Definition is_molecule_call (x : io) : bool :=
  match x with
  | IO c _ =>
      match c with tq_quantumchemistry_Molecule _ _ => true | _ => false end
  end.

(** ** The fixed constants, and the callees of a run *)

(** The calls that are given [basis], [threshold], [trotter_steps] or
    [n_ents]. *)
Definition takes_constant (x : io) : bool :=
  match x with
  | IO c _ =>
      match c with
      | tq_quantumchemistry_Molecule _ _ | make_uccsd_ansatz _ _ _ _
      | generate_QCC_gradient_groupings _ _ _ _ | get_QCC_entanglers _ _ _ =>
          true
      | _ => false
      end
  end.

Definition ExpectationValue_callee : callee :=
  Dotted "tq" ["ExpectationValue"].
Definition make_hamiltonian_callee : callee :=
  Member Molecule_callee "make_hamiltonian".

(** The callees of the cells in the order of the source, the body of the
    first loop taken [n] times and the body of the second [m] times. *)
Definition callees_in_order (n m : nat) : list callee :=
  (* the import cell *)
  [ ImportStatement; ImportStatement; ImportStatement ] ++
  (* the UCC VQE cell *)
  [ Bare "get_molecular_data"; Molecule_callee; make_hamiltonian_callee;
    Member Molecule_callee "make_uccsd_ansatz"; ExpectationValue_callee;
    Member ExpectationValue_callee "extract_variables";
    Dotted "tq" ["minimize"] ] ++
  (* the ranking cell *)
  [ Bare "get_molecular_data"; Molecule_callee;
    Member Molecule_callee "n_orbitals"; Member Molecule_callee "n_electrons";
    Bare "hf_occ"; make_hamiltonian_callee;
    Member make_hamiltonian_callee "to_openfermion";
    Member Molecule_callee "n_orbitals";
    Bare "generate_QCC_gradient_groupings"; Bare "print" ] ++
  concat (replicate n
            [ Member (Bare "generate_QCC_gradient_groupings") "__getitem__";
              Bare "print" ]) ++
  [ Member Molecule_callee "n_orbitals"; Bare "get_QCC_entanglers";
    Bare "print" ] ++
  replicate m (Bare "print") ++
  (* the QCC VQE cell *)
  [ Member Molecule_callee "n_orbitals"; Bare "construct_QMF_ansatz";
    Bare "construct_QCC_ansatz";
    Member (Bare "construct_QMF_ansatz") "__add__"; ExpectationValue_callee;
    Member ExpectationValue_callee "extract_variables";
    Bare "init_qcc_params"; Dotted "tq" ["minimize"] ].

(** The modules the notebook calls into: [print] is a builtin, the helpers
    come from [utility], everything else from tequila. *)
Definition called_modules : list string := ["builtins"; "utility"; "tequila"].

(** A trace entry is an import statement or a call into one of [mods]. *)
Definition calls_into (mods : list string) (imps : list import_stmt)
  (x : io) : Prop :=
  callee_of x = ImportStatement \/
  exists m, provider imps (callee_of x) = Some m /\ m ∈ mods.

(** ** Executions against a given library

    [agrees_with h s tr]: the answers in [tr] are the ones the handler [h]
    gives from the state [s], call after call. *)
Fixpoint agrees_with {S} (h : handler S) (s : S) (tr : trace) : Prop :=
  match tr with
  | [] => True
  | IO c r :: tr' => (h _ c s).1 = r /\ agrees_with h (h _ c s).2 tr'
  end.

(** ** The entanglers of the QCC ansatz *)



(** ** Parts of the notebook run on their own *)


(** What is seen of a run of the cells [cs] from the namespace [g]: the
    calls it made, in order, and how it ended. *)
Definition runs_with (cs : list cell) (g : Globals) (tr : trace)
  (o : outcome Globals) : Prop :=
  exists trs, exec_cells cs g trs o /\ concat trs = tr.

(** The names a code cell reads before it has bound them itself, in the
    order it first reads them: the callee of a call comes before its
    arguments. *)
Definition ucc_cell_reads : list Name.t :=
  [ Name.get_molecular_data; Name.tq; Name.basis; Name.threshold;
    Name.trotter_steps ].
Definition ranking_cell_reads : list Name.t :=
  [ Name.get_molecular_data; Name.tq; Name.basis; Name.hf_occ;
    Name.generate_QCC_gradient_groupings; Name.threshold;
    Name.get_QCC_entanglers ].
Definition vqe_cell_reads : list Name.t :=
  [ Name.construct_QMF_ansatz; Name.molecule; Name.construct_QCC_ansatz;
    Name.entanglers; Name.tq; Name.H; Name.init_qcc_params;
    Name.hf_reference ].

Definition free_reads : list (py unit * list Name.t) :=
  [ (cell_1, []); (cell_3, []); (cell_5, ucc_cell_reads);
    (cell_7, ranking_cell_reads); (cell_9, vqe_cell_reads); (cell_10, []) ].

Definition unbound_in (g : Globals) (x : Name.t) : bool :=
  match g x with Some _ => false | None => true end.

(** The first of the names [reads] that the namespace [g] does not bind. *)
Definition first_unbound (reads : list Name.t) (g : Globals)
  : option Name.t :=
  List.find (unbound_in g) reads.

(** What the outcome of a cell run on the namespace [g] shows of the names
    [reads]: the cell returns only when all of them are bound, and a
    [NameError] names the first of them that is not. *)
Definition reads_exactly {R} (reads : list Name.t) (g : Globals)
  (o : outcome R) : Prop :=
  match o with
  | Returned _ => first_unbound reads g = None
  | Raised (NameError n) =>
      exists x, first_unbound reads g = Some x /\ n = Name.to_string x
  | Raised (LibraryError _) => True
  end.

(** ** Where a run can stop *)

(** [stopped_after before N]: [before] holds the traces of the cells before
    the one that raised, and [N] the names whose [NameError] can stop the
    run there.  The run stopped in the import cell, the UCC cell, the
    ranking cell or the QCC VQE cell; in the last three only a helper name
    that the star import did not bind can be unbound. *)
Inductive stopped_after : list trace -> (string -> Prop) -> Prop :=
  | stopped_in_imports : stopped_after [ [] ] (fun _ => False)
  | stopped_in_ucc (names : list string) :
      stopped_after [ []; imports_trace names; []; []; [] ]
                    (unexported names)
  | stopped_in_ranking (names : list string) (u : ucc_answers) :
      stopped_after [ []; imports_trace names; []; []; []; ucc_trace u; [] ]
                    (unexported names)
  | stopped_in_vqe (names : list string) (u : ucc_answers)
      (r : ranking_answers) :
      length (rk_magnitudes r) = length (rk_groupings r) ->
      stopped_after
        [ []; imports_trace names; []; []; []; ucc_trace u; [];
          ranking_trace r; [] ]
        (unexported names).

End Observations.

Arguments bind_each {LT} x l g : simpl never.

(** * Sample environments

    Objects are shown as strings.  The answers follow the outputs stored in
    the notebook: one UCC variable, one ranked grouping of magnitude 0.2591,
    one entangler, nine QCC variables. *)
#[global] Instance demo_types : LibTypes := {|
  Geometry := string; Molecule := string; Hamiltonian := string;
  OFOperator := string; Circuit := string; Objective := string;
  TqVariable := string; OptResult := string; HFRef := list Z;
  Grouping := string; Item := string; Entangler := string;
  LibError := string |}.

Definition demo_qcc_variables : list string :=
  ["beta_1"; "beta_0"; "tau_0"; "gamma_1"; "beta_3"; "gamma_3"; "gamma_2";
   "gamma_0"; "beta_2"].

(** The names [from utility import *] binds in the sample runs. *)
Definition demo_names : list string :=
  [ "get_molecular_data"; "hf_occ"; "generate_QCC_gradient_groupings";
    "get_QCC_entanglers"; "construct_QMF_ansatz"; "construct_QCC_ansatz";
    "init_qcc_params" ].

Definition demo_lib (t : ty) (c : libE t) : answer t :=
  match c in libE t return answer t with
  | import_as _ _ => inr tt
  | import_star _ => inr demo_names
  | get_molecular_data mol geometry _ => inr (mol ++ " at R=2")%string
  | tq_quantumchemistry_Molecule geometry basis_set =>
      inr ("Molecule(" ++ geometry ++ ", " ++ basis_set ++ ")")%string
  | make_hamiltonian self => inr ("H[" ++ self ++ "]")%string
  | make_uccsd_ansatz self _ _ _ => inr "U_UCCSD"
  | tq_ExpectationValue H U => inr ("<" ++ U ++ "|H|" ++ U ++ ">")%string
  | extract_variables self =>
      inr (if decide (self = "<U_UCCSD|H|U_UCCSD>") then ["(1, 0, 1, 0)"]
           else demo_qcc_variables)
  | tq_minimize _ _ _ _ => inr "E=-0.94864111"
  | n_orbitals _ => inr 2
  | n_electrons _ => inr 2
  | hf_occ n_spin_orbitals n_el => inr [1; 1; 0; 0]
  | to_openfermion self => inr ("of(" ++ self ++ ")")%string
  | generate_QCC_gradient_groupings _ _ _ _ => inr ["([X0 Y1 X2 X3], 0.2591)"]
  | getitem self _ => inr "0.2591"
  | print _ => inr tt
  | get_QCC_entanglers _ _ _ => inr ["1.0 [X0 Y1 X2 X3]"]
  | construct_QMF_ansatz _ => inr "U_MF"
  | construct_QCC_ansatz _ => inr "U_ENT"
  | circuit_add a b => inr (a ++ "+" ++ b)%string
  | init_qcc_params _ variables => inr (map (fun k => (k, 0.0%float)) variables)
  end.

(** A stateless environment as a handler. *)
Definition stateless {LT : LibTypes} (lib : forall t, libE t -> answer t)
  : handler unit := fun t c s => (lib t c, s).

Definition demo_run : list trace * outcome Globals * unit :=
  run_notebook (stateless demo_lib) tt.

Definition demo_traces : list trace := fst (fst demo_run).
Definition demo_outcome : outcome Globals := snd (fst demo_run).

Definition demo_globals : Globals :=
  match demo_outcome with
  | Returned g => g
  | Raised _ => no_globals
  end.

(** The [tq.minimize] call of the UCC cell in the sample run. *)
Definition demo_ucc_minimize : io :=
  ok (tq_minimize "<U_UCCSD|H|U_UCCSD>" "BFGS" [("(1, 0, 1, 0)", 0.0%float)]
        1e-6%float)
     "E=-0.94864111".

(** The ranking call in the sample run. *)
Definition demo_ranking_call : io :=
  ok (generate_QCC_gradient_groupings "of(H[Molecule(h2 at R=2, sto-3g)])" 4
        [1; 1; 0; 0] 1e-6%float)
     ["([X0 Y1 X2 X3], 0.2591)"].

(** ** A run in which a call fails

    The environment of the sample run, except that [make_uccsd_ansatz]
    raises. *)
Definition failing_lib (t : ty) (c : libE t) : answer t :=
  match c in libE t return answer t -> answer t with
  | make_uccsd_ansatz _ _ _ _ => fun _ => inl "psi4 is not installed"
  | _ => fun r => r
  end (demo_lib t c).

Definition failing_run : list trace * outcome Globals * unit :=
  run_notebook (stateless failing_lib) tt.

Definition failing_traces : list trace := fst (fst failing_run).

(** ** A second environment with the same answers

    A handler that keeps a count of the calls it served. *)
Definition counting_handler : handler nat :=
  fun t c n => (demo_lib t c, S n).

Definition counted_run : list trace * outcome Globals * nat :=
  run_notebook counting_handler 0%nat.

(** ** A run in which a helper is missing

    The environment of the sample run, except that the module [utility]
    does not export [hf_occ]. *)
Definition names_without_hf_occ : list string :=
  [ "get_molecular_data"; "generate_QCC_gradient_groupings";
    "get_QCC_entanglers"; "construct_QMF_ansatz"; "construct_QCC_ansatz";
    "init_qcc_params" ].

Definition lib_without_hf_occ (t : ty) (c : libE t) : answer t :=
  match c in libE t return answer t -> answer t with
  | import_star _ => fun _ => inr names_without_hf_occ
  | _ => fun r => r
  end (demo_lib t c).

Definition run_without_hf_occ : list trace * outcome Globals * unit :=
  run_notebook (stateless lib_without_hf_occ) tt.

Definition traces_without_hf_occ : list trace := fst (fst run_without_hf_occ).


(** ** Answers with an empty ranking

    The answers of the sample run, except that the ranking finds no grouping
    and no entangler is generated. *)
Definition demo_ucc_answers : ucc_answers := {|
  ucc_xyz_data := "h2 at R=2";
  ucc_molecule := "Molecule(h2 at R=2, sto-3g)";
  ucc_H := "H[Molecule(h2 at R=2, sto-3g)]";
  ucc_U_UCCSD := "U_UCCSD";
  ucc_E := "<U_UCCSD|H|U_UCCSD>";
  ucc_variables := ["(1, 0, 1, 0)"];
  ucc_result := "E=-0.94864111" |}.

Definition empty_ranking_answers : ranking_answers := {|
  rk_xyz_data := "h2 at R=2";
  rk_molecule := "Molecule(h2 at R=2, sto-3g)";
  rk_n_orbitals_hf := 2;
  rk_n_electrons := 2;
  rk_hf_reference := [1; 1; 0; 0];
  rk_H := "H[Molecule(h2 at R=2, sto-3g)]";
  rk_H_of := "of(H[Molecule(h2 at R=2, sto-3g)])";
  rk_n_orbitals_rank := 2;
  rk_groupings := [];
  rk_magnitudes := [];
  rk_n_orbitals_ent := 2;
  rk_entanglers := [] |}.

Definition mean_field_vqe_answers : vqe_answers := {|
  vq_n_orbitals := 2;
  vq_U_MF := "U_MF";
  vq_U_ENT := "empty circuit";
  vq_U_QCC := "U_MF+empty circuit";
  vq_E := "<U_MF|H|U_MF>";
  vq_variables := ["beta_0"; "gamma_0"];
  vq_initial_vals := [("beta_0", 0.0%float); ("gamma_0", 0.0%float)];
  vq_result := "E=-0.78379265" |}.

(** ** The UCC cell on a kernel that skipped the [trotter_steps] cell *)
Definition without_trotter_steps : Globals :=
  globals_after_imports demo_names.

Definition skipped_setup_run : trace * outcome (unit * Globals) * unit :=
  run (stateless demo_lib) (cell_5 without_trotter_steps) tt.

(** * Facts about executions of any script *)

(** Unfolding a cell down to its tree of calls. *)
Ltac unfold_cell H :=
  unfold cell_1, cell_3, cell_5, cell_7, cell_9, cell_10, pass, bind_star,
    mbind, py_bind, mret, py_ret, bind, ret, call, load_name, store_name in H.

Ltac unfold_cell_goal :=
  unfold cell_1, cell_3, cell_5, cell_7, cell_9, cell_10, pass, bind_star,
    mbind, py_bind, mret, py_ret, bind, ret, call, load_name, store_name.

Section Facts.
Context {LT : LibTypes}.

Lemma run_exec {R S} (h : handler S) (p : script R) (s : S) :
  exec p (run h p s).1.1 (run h p s).1.2.
Proof.
  revert s. induction p as [r|e|t c k IH]; intros s; simpl; auto.
  destruct (h t c s) as [r s'].
  specialize (IH r s'). destruct (run h (k r) s') as [[tr o] s''].
  simpl in *. eauto.
Qed.

Lemma run_cells_exec {S} (h : handler S) (cs : list cell) (g : Globals)
  (s : S) :
  exec_cells cs g (run_cells h cs g s).1.1 (run_cells h cs g s).1.2.
Proof.
  revert g s. induction cs as [|c cs IH]; intros g s; simpl; auto.
  destruct (ctype c).
  - specialize (IH g s). destruct (run_cells h cs g s) as [[trs o] s'].
    simpl in *. eauto.
  - pose proof (run_exec h (source c g) s) as Hc.
    destruct (run h (source c g) s) as [[tr [[[] g']|e]] s']; simpl in *.
    + specialize (IH g' s').
      destruct (run_cells h cs g' s') as [[trs o] s'']. simpl in *.
      right. eauto 6.
    + left. eauto.
Qed.

(** Sequencing: the first part raises, or it returns and the rest runs. *)
Lemma exec_sbind {A B} (p : script A) (f : A -> script B) tr o :
  exec (sbind p f) tr o <->
  (exists e, exec p tr (Raised e) /\ o = Raised e) \/
  (exists a tr1 tr2,
      exec p tr1 (Returned a) /\ exec (f a) tr2 o /\ tr = tr1 ++ tr2).
Proof.
  revert tr. induction p as [r|e|t c k IH]; intros tr; simpl.
  - split.
    + intros Hf. right. exists r, [], tr. auto.
    + intros [(e & [_ He] & _)|(a & tr1 & tr2 & [-> Ha] & Hf & ->)].
      * discriminate.
      * injection Ha as <-. exact Hf.
  - split.
    + intros [-> ->]. left. eauto.
    + intros [(e' & [-> He] & ->)|(a & tr1 & tr2 & [_ Ha] & _)].
      * injection He as ->. auto.
      * discriminate.
  - split.
    + intros (r & tr' & -> & Hk).
      apply IH in Hk as [(e & Hk & ->)|(a & tr1 & tr2 & Hk & Hf & ->)].
      * left. exists e. eauto 6.
      * right. exists a, (IO c r :: tr1), tr2. eauto 8.
    + intros [(e & (r & tr' & -> & Hk) & ->)
             |(a & tr1 & tr2 & (r & tr' & -> & Hk) & Hf & ->)].
      * exists r, tr'. split; [reflexivity|]. apply IH. left. eauto.
      * exists r, (tr' ++ tr2). split; [reflexivity|].
        apply IH. right. eauto 6.
Qed.

(** An execution is determined by the answers it got: two executions of
    one script that were answered alike made the same calls, with the same
    arguments, and ended alike. *)
Lemma answer_inj t (r1 r2 : answer t) :
  existT (P := answer) t r1 = existT t r2 -> r1 = r2.
Proof. apply (inj_pair2_eq_dec _ ty_eq_dec). Qed.

Lemma exec_deterministic {R} (p : script R) tr1 tr2 o1 o2 :
  exec p tr1 o1 -> exec p tr2 o2 ->
  map answer_of tr1 = map answer_of tr2 ->
  tr1 = tr2 /\ o1 = o2.
Proof.
  revert tr1 tr2. induction p as [r|e|t c k IH]; intros tr1 tr2; simpl.
  - intros [-> ->] [-> ->] _. auto.
  - intros [-> ->] [-> ->] _. auto.
  - intros (r1 & tr1' & -> & H1) (r2 & tr2' & -> & H2) Heq.
    rewrite !map_cons in Heq.
    pose proof (f_equal head Heq) as Hhd. simpl in Hhd.
    apply (inj Some), answer_inj in Hhd. subst r2.
    assert (map answer_of tr1' = map answer_of tr2') as Htl
      by (apply (f_equal tail) in Heq; exact Heq).
    destruct (IH r1 tr1' tr2' H1 H2 Htl) as [-> ->]. auto.
Qed.

(** An execution whose answers are those of a handler is the run against
    that handler. *)
Lemma exec_agrees_with {R S} (h : handler S) (p : script R) s tr o :
  exec p tr o -> agrees_with h s tr ->
  tr = (run h p s).1.1 /\ o = (run h p s).1.2 /\
  forall tr', agrees_with h s (tr ++ tr') <->
              agrees_with h (run h p s).2 tr'.
Proof.
  revert s tr. induction p as [r|e|t c k IH]; intros s tr; simpl.
  - intros [-> ->] _. repeat split; auto.
  - intros [-> ->] _. repeat split; auto.
  - intros (r & tr' & -> & Hk) [Hr Htr'].
    destruct (h t c s) as [r' s'] eqn:Hh. simpl in Hr, Htr'. subst r'.
    destruct (IH r s' tr' Hk Htr') as (Htr & Ho & Happ).
    destruct (run h (k r) s') as [[tr0 o0] s''] eqn:Hrun. simpl in *.
    subst. split; [reflexivity|]. split; [reflexivity|].
    intros tr''. rewrite Hh. simpl. rewrite Happ. tauto.
Qed.

Lemma safe_exec {R} (P : io -> Prop) (N : string -> Prop) (Q : R -> Prop)
  (p : script R) tr o :
  safe P N Q p -> exec p tr o ->
  Forall P tr /\ ends_with tr o /\
  match o with
  | Returned r => Q r
  | Raised (NameError n) => N n
  | Raised (LibraryError _) => True
  end.
Proof.
  revert tr. induction p as [r|[n|e]|t c k IH]; intros tr; simpl.
  - intros HQ [-> ->]. repeat split; auto. constructor.
  - intros HN [-> ->]. repeat split; auto. constructor.
  - intros [].
  - intros Hs (r & tr' & -> & Hk). destruct (Hs r) as [HP Hr].
    destruct r as [e|v].
    + rewrite Hr in Hk. destruct Hk as [-> ->].
      split; [repeat constructor; exact HP|]. split; [|exact I].
      exists [], t, c. split; [reflexivity | constructor].
    + destruct (IH (inr v) tr' Hr Hk) as (Htr & Hend & Ho).
      split; [constructor; assumption|]. split; [|exact Ho].
      destruct o as [r|[n|e]]; simpl in *.
      * constructor; [reflexivity | exact Hend].
      * constructor; [reflexivity | exact Hend].
      * destruct Hend as (tr0 & t' & c' & -> & Htr0).
        exists (IO c (inr v) :: tr0), t', c'.
        split; [reflexivity|]. constructor; [reflexivity | exact Htr0].
Qed.

Lemma safe_sbind {A B} (P : io -> Prop) (N : string -> Prop)
  (Q' : A -> Prop) (Q : B -> Prop) (p : script A) (f : A -> script B) :
  safe P N Q' p -> (forall a, Q' a -> safe P N Q (f a)) ->
  safe P N Q (sbind p f).
Proof.
  intros Hp Hf. induction p as [r|[n|e]|t c k IH]; simpl in *; auto.
  intros r. destruct (Hp r) as [HP Hk]. split; [exact HP|].
  destruct r as [e|v]; [rewrite Hk; reflexivity | auto].
Qed.

Lemma safe_mono {R} (P : io -> Prop) (N N' : string -> Prop)
  (Q Q' : R -> Prop) (p : script R) :
  safe P N Q p -> (forall n, N n -> N' n) -> (forall r, Q r -> Q' r) ->
  safe P N' Q' p.
Proof.
  intros Hp HN HQ. induction p as [r|[n|e]|t c k IH]; simpl in *; auto.
  intros r. destruct (Hp r) as [HP Hk]. split; [exact HP|].
  destruct r; auto.
Qed.

(** An exception answered by a call of a run that ends as [ends_with] says
    is the last entry of the trace and the outcome of the run. *)
Lemma ends_with_raised {R} tr (o : outcome R) tr0 t (c : libE t) le rest :
  ends_with tr o -> tr = tr0 ++ IO c (inl le) :: rest ->
  rest = [] /\ o = Raised (LibraryError le).
Proof.
  intros Hend ->.
  assert (~ Forall answered (tr0 ++ IO c (inl le) :: rest)) as Hno.
  { intros Hall. apply Forall_app in Hall as [_ Hall].
    apply Forall_cons in Hall as [Hx _]. discriminate Hx. }
  destruct o as [r|[n|e]]; simpl in Hend; try (destruct (Hno Hend)).
  destruct Hend as (tr1 & t' & c' & Heq & Htr1).
  destruct rest as [|x rest _] using rev_ind.
  - apply app_inj_tail in Heq as [_ Heq].
    apply (f_equal answer_of) in Heq. simpl in Heq.
    assert (t' = t) as -> by (apply (f_equal (@projT1 _ _)) in Heq; auto).
    apply answer_inj in Heq. injection Heq as ->. auto.
  - rewrite app_comm_cons, app_assoc in Heq.
    apply app_inj_tail in Heq as [<- _].
    apply Forall_app in Htr1 as [_ Htr1].
    apply Forall_cons in Htr1 as [Hx _]. discriminate Hx.
Qed.

End Facts.

(** * Dictionary comprehensions *)
Section DictFacts.
Context {K V : Type} `{EqDecision K}.
Implicit Types (d : dict K V) (l : list K).

Lemma dict_get_set d k v k' :
  dict_get (dict_set d k v) k' =
  if decide (k' = k) then Some v else dict_get d k'.
Proof.
  induction d as [|[k0 v0] d IH]; simpl.
  - reflexivity.
  - destruct (decide (k = k0)) as [->|Hk]; simpl.
    + destruct (decide (k' = k0)); reflexivity.
    + rewrite IH. repeat case_decide; congruence.
Qed.

Lemma dict_keys_set d k v :
  dict_keys (dict_set d k v) =
  if decide (k ∈ dict_keys d) then dict_keys d else dict_keys d ++ [k].
Proof.
  unfold dict_keys. induction d as [|[k0 v0] d IH].
  - rewrite decide_False by apply not_elem_of_nil. reflexivity.
  - cbn [dict_set]. destruct (decide (k = k0)) as [->|Hk].
    + rewrite decide_True by apply list_elem_of_here. reflexivity.
    + cbn [map fst]. rewrite IH.
      destruct (decide (k ∈ map fst d)) as [Hin|Hin].
      * rewrite decide_True by (apply list_elem_of_further; exact Hin).
        reflexivity.
      * rewrite decide_False; [reflexivity|].
        intros [->|?]%elem_of_cons; congruence.
Qed.

Lemma dict_set_values (P : V -> Prop) d k v :
  Forall (fun kv => P kv.2) d -> P v ->
  Forall (fun kv => P kv.2) (dict_set d k v).
Proof.
  intros Hd Hv. induction Hd as [|[k0 v0] d H0 Hd IH]; simpl.
  - repeat constructor. exact Hv.
  - destruct (decide (k = k0)); constructor; auto.
Qed.

Lemma fold_dict_set_get l (v0 : V) d k :
  dict_get (fold_left (fun d k => dict_set d k v0) l d) k =
  if decide (k ∈ l) then Some v0 else dict_get d k.
Proof.
  revert d. induction l as [|k0 l IH]; intros d.
  - rewrite decide_False by apply not_elem_of_nil. reflexivity.
  - cbn [fold_left]. rewrite IH, dict_get_set.
    destruct (decide (k ∈ l)) as [Hin|Hin].
    + rewrite decide_True by (apply list_elem_of_further; exact Hin).
      reflexivity.
    + destruct (decide (k = k0)) as [->|Hk].
      * rewrite decide_True by apply list_elem_of_here. reflexivity.
      * rewrite decide_False; [reflexivity|].
        intros [->|?]%elem_of_cons; congruence.
Qed.

Lemma fold_dict_set_keys l (v0 : V) d :
  NoDup (dict_keys d) ->
  NoDup (dict_keys (fold_left (fun d k => dict_set d k v0) l d)) /\
  forall k, k ∈ dict_keys (fold_left (fun d k => dict_set d k v0) l d)
            <-> k ∈ dict_keys d \/ k ∈ l.
Proof.
  revert d. induction l as [|k0 l IH]; intros d Hd; simpl.
  - split; [exact Hd|]. intros k. rewrite elem_of_nil. tauto.
  - assert (NoDup (dict_keys (dict_set d k0 v0))) as Hd'.
    { rewrite dict_keys_set. destruct (decide (k0 ∈ dict_keys d)); [exact Hd|].
      apply NoDup_app. split; [exact Hd|]. split.
      - intros x Hx ->%list_elem_of_singleton. contradiction.
      - apply NoDup_singleton. }
    destruct (IH _ Hd') as [Hnd Hin]. split; [exact Hnd|].
    intros k. rewrite Hin, dict_keys_set, elem_of_cons.
    destruct (decide (k0 ∈ dict_keys d)) as [H0|H0].
    + split; [tauto|]. intros [?|[->|?]]; auto.
    + rewrite elem_of_app, list_elem_of_singleton. tauto.
Qed.

Lemma fold_dict_set_values (P : V -> Prop) l (v0 : V) d :
  Forall (fun kv => P kv.2) d -> P v0 ->
  Forall (fun kv => P kv.2) (fold_left (fun d k => dict_set d k v0) l d).
Proof.
  revert d. induction l as [|k0 l IH]; intros d Hd Hv; simpl; [exact Hd|].
  apply IH; [|exact Hv]. apply dict_set_values; assumption.
Qed.

Lemma fold_dict_set_nodup l (v0 : V) d :
  NoDup (dict_keys d ++ l) ->
  fold_left (fun d k => dict_set d k v0) l d = d ++ map (fun k => (k, v0)) l.
Proof.
  revert d. induction l as [|k0 l IH]; intros d Hnd; simpl.
  - rewrite app_nil_r. reflexivity.
  - assert (dict_set d k0 v0 = d ++ [(k0, v0)]) as ->.
    { apply NoDup_app in Hnd as (_ & Hdis & _).
      assert (k0 ∉ dict_keys d) as Hk0.
      { intros Hin. apply (Hdis k0 Hin). apply list_elem_of_here. }
      clear -Hk0. unfold dict_keys in Hk0.
      induction d as [|[k1 v1] d IH]; simpl in *; [reflexivity|].
      apply not_elem_of_cons in Hk0 as [Hne Hk0].
      rewrite decide_False by exact Hne. rewrite IH by exact Hk0.
      reflexivity. }
    rewrite IH.
    + rewrite <- app_assoc. reflexivity.
    + unfold dict_keys in *. rewrite map_app, <- app_assoc. exact Hnd.
Qed.

(** [{k: v0 for k in l}] has exactly the elements of [l] as keys, each once
    and each mapped to [v0]; when [l] has no repeats it has one entry per
    element, in the order of [l]. *)
Lemma dict_comprehension_spec l (v0 : V) :
  (forall k, dict_get (dict_comprehension l v0) k =
             if decide (k ∈ l) then Some v0 else None) /\
  NoDup (dict_keys (dict_comprehension l v0)) /\
  (forall k, k ∈ dict_keys (dict_comprehension l v0) <-> k ∈ l) /\
  Forall (fun kv => kv.2 = v0) (dict_comprehension l v0) /\
  (NoDup l -> dict_comprehension l v0 = map (fun k => (k, v0)) l).
Proof.
  unfold dict_comprehension. split; [|split; [|split; [|split]]].
  - intros k. rewrite fold_dict_set_get. reflexivity.
  - apply fold_dict_set_keys. constructor.
  - intros k.
    destruct (fold_dict_set_keys l v0 [] (NoDup_nil_2 : NoDup (dict_keys []))) as [_ Hin].
    rewrite Hin. simpl. rewrite elem_of_nil. tauto.
  - apply (fold_dict_set_values (fun v => v = v0));
      [constructor | reflexivity].
  - intros Hnd. rewrite fold_dict_set_nodup; [reflexivity | exact Hnd].
Qed.

End DictFacts.

(** * The shape of a completed run *)
Section Loops.
Context {LT : LibTypes}.

Lemma bind_each_other x l g y : y <> x -> bind_each x l g y = g y.
Proof.
  intros Hy. revert g. unfold bind_each.
  induction l as [|v l IH]; intros g; simpl; [reflexivity|].
  rewrite IH. unfold upd. destruct (Name.eq_dec x y); congruence.
Qed.

Lemma magnitudes_loop_completed (l : list Grouping) g tr u g' :
  exec (for_in Name.grouping l print_magnitude g) tr (Returned (u, g')) ->
  exists xs, length xs = length l /\ tr = magnitudes_trace l xs
             /\ g' = bind_each Name.grouping l g.
Proof.
  revert g tr. induction l as [|v l IH]; intros g tr; simpl.
  - intros [-> Hg]. injection Hg as _ ->. exists []. auto.
  - cbn. intros ([e|x] & tr1 & -> & H); cbn in H; [destruct H as [_ [=]]|].
    destruct H as ([e|[]] & tr2 & -> & H); cbn in H;
      [destruct H as [_ [=]]|].
    apply IH in H as (xs & Hlen & -> & ->).
    exists (x :: xs). simpl. auto.
Qed.

Lemma entanglers_loop_completed (l : list Entangler) g tr u g' :
  exec (for_in Name.ent l print_entangler g) tr (Returned (u, g')) ->
  tr = entanglers_trace l /\ g' = bind_each Name.ent l g.
Proof.
  revert g tr. induction l as [|v l IH]; intros g tr; simpl.
  - intros [-> Hg]. injection Hg as _ ->. auto.
  - cbn. intros ([e|[]] & tr2 & -> & H); cbn in H;
      [destruct H as [_ [=]]|].
    apply IH in H as [-> ->]. auto.
Qed.

Lemma magnitudes_loop_intro (l : list Grouping) (xs : list Item) g :
  length xs = length l ->
  exec (for_in Name.grouping l print_magnitude g) (magnitudes_trace l xs)
       (Returned (tt, bind_each Name.grouping l g)).
Proof.
  revert xs g. induction l as [|v l IH]; intros [|x xs] g Hlen;
    try discriminate; [split; reflexivity|].
  cbn. exists (inr x), (ok (print (PItem x)) tt :: magnitudes_trace l xs).
  split; [reflexivity|]. cbn. exists (inr tt), (magnitudes_trace l xs).
  split; [reflexivity|]. apply IH. simpl in Hlen. congruence.
Qed.

Lemma entanglers_loop_intro (l : list Entangler) g :
  exec (for_in Name.ent l print_entangler g) (entanglers_trace l)
       (Returned (tt, bind_each Name.ent l g)).
Proof.
  revert g. induction l as [|v l IH]; intros g; [split; reflexivity|].
  cbn. exists (inr tt), (entanglers_trace l).
  split; [reflexivity|]. apply IH.
Qed.

(** After [for x in l], [x] holds the last element; it keeps what it held
    when [l] is empty. *)
Lemma bind_each_same x l g :
  bind_each x l g x = match last l with Some v => Some v | None => g x end.
Proof.
  revert g. unfold bind_each.
  induction l as [|v l IH]; intros g; [reflexivity|].
  cbn [fold_left]. rewrite IH. destruct l as [|w l].
  - cbn. unfold upd. destruct (Name.eq_dec x x) as [e|ne]; [|congruence].
    rewrite (Eqdep_dec.UIP_dec Name.eq_dec e eq_refl). reflexivity.
  - rewrite last_cons_cons. destruct (last (w :: l)) eqn:Hl; [reflexivity|].
    apply last_None in Hl. discriminate.
Qed.

End Loops.

(** ** Symbolic execution of a cell *)

(** The read of a helper name that a script is about to make, when the
    namespace is known up to what the star import bound. *)
Ltac pending_export p :=
  lazymatch p with
  | sbind ?p' _ => pending_export p'
  | match ?d with _ => _ end =>
      lazymatch d with
      | if exported ?names ?n then _ else _ => constr:(exported names n)
      end
  end.

(** A cell that returned, from a known namespace: every call was answered
    with a value, and every helper name read was bound. *)
Ltac step_returned H :=
  repeat (
    cbn in H;
    first
    [ rewrite bind_each_other in H by (intros ?; discriminate)
    | match goal with
      | E : exported ?names ?n = _ |- _ => rewrite E in H
      end
    | lazymatch type of H with
      | ex _ =>
          let r := fresh "r" in
          destruct H as (r & ? & -> & H); destruct r as [?|?];
          [cbn in H; destruct H as [_ H]; discriminate H|]
      | exec (sbind (for_in _ _ _ _) _) _ _ =>
          let Hl := fresh "Hloop" in
          apply exec_sbind in H;
          destruct H as [(? & _ & H)|([[] ?] & ? & ? & Hl & H & ->)];
          [discriminate H|];
          first [ apply magnitudes_loop_completed in Hl as (? & ? & -> & ->)
                | apply entanglers_loop_completed in Hl as (-> & ->) ]
      | exec ?p _ _ =>
          let b := pending_export p in
          let E := fresh "Hexp" in
          destruct b eqn:E; [|cbn in H; destruct H as [_ H]; discriminate H]
      end ]);
  cbn in H;
  lazymatch type of H with
  | exec (for_in _ _ _ _) _ _ =>
      apply entanglers_loop_completed in H as (-> & ->)
  | _ /\ _ => destruct H as [-> [= ->]]
  end.

(** Building the execution of a cell from its trace. *)
Ltac build_returned :=
  repeat (
    cbn;
    first
    [ rewrite bind_each_other by (intros ?; discriminate)
    | match goal with
      | E : exported ?names ?n = _ |- _ => rewrite E
      end
    | lazymatch goal with
      | |- ex _ => eexists (inr _), _; split; [reflexivity|]
      | |- exec (sbind (for_in Name.grouping _ _ _) _) _ _ =>
          apply exec_sbind; right; eexists (tt, _), _, _;
          split; [apply magnitudes_loop_intro; eassumption|];
          split; [|reflexivity]
      | |- exec (for_in Name.ent _ _ _) _ _ => apply entanglers_loop_intro
      | |- _ = _ /\ _ = _ => split; reflexivity
      end ]).

(** Looking a name up in a namespace built by the cells. *)
Ltac lookup_name :=
  unfold final_globals, globals_after_ranking, globals_after_ucc,
    globals_after_setup, globals_after_imports, import_bindings;
  repeat (
    cbn;
    first [ rewrite bind_each_other by (intros ?; discriminate)
          | rewrite bind_each_same ]);
  cbn;
  repeat match goal with
         | E : exported ?l ?n = _ |- context [exported ?l ?n] => rewrite E
         end;
  try reflexivity.

Ltac unfold_traces :=
  unfold completed_traces, imports_trace, ucc_trace, ranking_trace,
    ranking_head, ranking_tail, vqe_trace, ok;
  cbn [ucc_xyz_data ucc_molecule ucc_H ucc_U_UCCSD ucc_E ucc_variables
       ucc_result rk_xyz_data rk_molecule rk_n_orbitals_hf rk_n_electrons
       rk_hf_reference rk_H rk_H_of rk_n_orbitals_rank rk_groupings
       rk_magnitudes rk_n_orbitals_ent rk_entanglers vq_n_orbitals vq_U_MF
       vq_U_ENT vq_U_QCC vq_E vq_variables vq_initial_vals vq_result].

Section Shape.
Context {LT : LibTypes}.

Lemma helpers_exported_spec names :
  helpers_exported names <->
  exported names "get_molecular_data" = true /\
  exported names "hf_occ" = true /\
  exported names "generate_QCC_gradient_groupings" = true /\
  exported names "get_QCC_entanglers" = true /\
  exported names "construct_QMF_ansatz" = true /\
  exported names "construct_QCC_ansatz" = true /\
  exported names "init_qcc_params" = true.
Proof.
  unfold helpers_exported, Name.helpers.
  rewrite !Forall_cons, Forall_nil. simpl. tauto.
Qed.

(** ** The code cells, one by one: what a cell that returned did *)

Lemma cell_1_returned g tr g' :
  exec (cell_1 g) tr (Returned (tt, g')) ->
  exists names, tr = imports_trace names /\ g' = import_bindings names g.
Proof.
  intros H. unfold_cell H. step_returned H.
  repeat match goal with u : denote TUnit |- _ => destruct u end.
  eexists. split; reflexivity.
Qed.

Lemma cell_3_returned g tr g' :
  exec (cell_3 g) tr (Returned (tt, g')) ->
  tr = [] /\ g' = upd Name.trotter_steps 1 g.
Proof. intros [-> [= ->]]. auto. Qed.

Lemma cell_5_returned names tr g' :
  exec (cell_5 (globals_after_setup names)) tr (Returned (tt, g')) ->
  exported names "get_molecular_data" = true /\
  exists u, tr = ucc_trace u /\ g' = globals_after_ucc names u.
Proof.
  intros H. unfold_cell H.
  unfold globals_after_setup, globals_after_imports,
    import_bindings in H.
  step_returned H. split; [reflexivity|].
  eexists (Build_ucc_answers _ _ _ _ _ _ _). split; reflexivity.
Qed.

Lemma cell_7_returned names u tr g' :
  exec (cell_7 (globals_after_ucc names u)) tr (Returned (tt, g')) ->
  exported names "get_molecular_data" = true /\
  exported names "hf_occ" = true /\
  exported names "generate_QCC_gradient_groupings" = true /\
  exported names "get_QCC_entanglers" = true /\
  exists r,
    length (rk_magnitudes r) = length (rk_groupings r) /\
    tr = ranking_trace r /\ g' = globals_after_ranking names u r.
Proof.
  intros H. unfold_cell H.
  unfold globals_after_ucc, globals_after_setup, globals_after_imports,
    import_bindings in H.
  step_returned H.
  repeat match goal with u : denote TUnit |- _ => destruct u end.
  repeat (split; [reflexivity|]).
  eexists (Build_ranking_answers _ _ _ _ _ _ _ _ _ _ _ _).
  split; [|split; reflexivity]. assumption.
Qed.

Lemma cell_9_returned names u r tr g' :
  exec (cell_9 (globals_after_ranking names u r)) tr (Returned (tt, g')) ->
  exported names "construct_QMF_ansatz" = true /\
  exported names "construct_QCC_ansatz" = true /\
  exported names "init_qcc_params" = true /\
  exists v, tr = vqe_trace r v /\ g' = final_globals names u r v.
Proof.
  intros H. unfold_cell H.
  unfold globals_after_ranking, globals_after_ucc, globals_after_setup,
    globals_after_imports,
    import_bindings in H.
  step_returned H.
  repeat (split; [reflexivity|]).
  eexists (Build_vqe_answers _ _ _ _ _ _ _ _). split; reflexivity.
Qed.

Lemma cell_10_returned g tr g' :
  exec (cell_10 g) tr (Returned (tt, g')) -> tr = [] /\ g' = g.
Proof. intros [-> [= ->]]. auto. Qed.

(** Every completed run has the traces [completed_traces] and leaves the
    namespace [final_globals], for the answers it got; the star import bound
    every helper name, and the magnitudes printed are one per ranked
    grouping. *)
Lemma execution_completed trs g :
  execution trs (Returned g) ->
  exists names u r v,
    helpers_exported names /\
    length (rk_magnitudes r) = length (rk_groupings r) /\
    trs = completed_traces names u r v /\ g = final_globals names u r v.
Proof.
  unfold execution, notebook.
  cbn [exec_cells ctype md code_cell source].
  intros (? & -> & [(? & ? & _ & _ & ?)|(tr1 & g1 & ? & -> & H1 & H)]);
    [discriminate|].
  destruct H as (? & -> & [(? & ? & _ & _ & ?)|(tr3 & g3 & ? & -> & H3 & H)]);
    [discriminate|].
  destruct H as (? & -> & [(? & ? & _ & _ & ?)|(tr5 & g5 & ? & -> & H5 & H)]);
    [discriminate|].
  destruct H as (? & -> & [(? & ? & _ & _ & ?)|(tr7 & g7 & ? & -> & H7 & H)]);
    [discriminate|].
  destruct H as (? & -> & [(? & ? & _ & _ & ?)|(tr9 & g9 & ? & -> & H9 & H)]);
    [discriminate|].
  destruct H as [(? & ? & _ & _ & ?)|(tr10 & g10 & ? & -> & H10 & -> & Hg)];
    [discriminate|].
  injection Hg as ->.
  apply cell_1_returned in H1 as (names & -> & ->).
  apply cell_3_returned in H3 as (-> & ->).
  apply cell_5_returned in H5 as (? & u & -> & ->).
  apply cell_7_returned in H7 as (_ & ? & ? & ? & r & ? & -> & ->).
  apply cell_9_returned in H9 as (? & ? & ? & v & -> & ->).
  apply cell_10_returned in H10 as (-> & ->).
  exists names, u, r, v.
  split; [apply helpers_exported_spec; repeat split; assumption|].
  split; [assumption|]. split; reflexivity.
Qed.

(** Every choice of answers is a completed run, leaving [final_globals]:
    the notebook inspects no answer. *)
Lemma completed_traces_execution names u r v :
  helpers_exported names ->
  length (rk_magnitudes r) = length (rk_groupings r) ->
  execution (completed_traces names u r v)
            (Returned (final_globals names u r v)).
Proof.
  intros Hnames Hlen. destruct u, r, v. simpl in Hlen.
  apply helpers_exported_spec in Hnames as (? & ? & ? & ? & ? & ? & ?).
  unfold execution, notebook, final_globals. unfold_traces.
  cbn [exec_cells ctype md code_cell source].
  eexists. split; [reflexivity|]. right. eexists _, _, _.
  split; [reflexivity|]. split; [unfold_cell_goal; build_returned|].
  eexists. split; [reflexivity|]. right. eexists _, _, _.
  split; [reflexivity|]. split; [unfold_cell_goal; build_returned|].
  eexists. split; [reflexivity|]. right. eexists _, _, _.
  split; [reflexivity|]. split; [unfold_cell_goal; build_returned|].
  eexists. split; [reflexivity|]. right. eexists _, _, _.
  split; [reflexivity|]. split; [unfold_cell_goal; build_returned|].
  eexists. split; [reflexivity|]. right. eexists _, _, _.
  split; [reflexivity|]. split; [unfold_cell_goal; build_returned|].
  right. eexists _, _, _.
  split; [reflexivity|]. split; [unfold_cell_goal; build_returned|].
  split; reflexivity.
Qed.

End Shape.

(** * Every execution of a cell *)
Section LoopSafety.
Context {LT : LibTypes}.

Lemma magnitudes_loop_safe (P : io -> Prop) (N : string -> Prop)
  (l : list Grouping) g :
  (forall gr r, P (IO (getitem gr 1) r)) ->
  (forall x r, P (IO (print (PItem x)) r)) ->
  safe P N (fun ag => ag.2 = bind_each Name.grouping l g)
       (for_in Name.grouping l print_magnitude g).
Proof.
  intros Hget Hprint. revert g.
  induction l as [|v l IH]; intros g; [reflexivity|].
  cbn. intros [e|x]; (split; [auto|]); [reflexivity|].
  cbn. intros [e|[]]; (split; [auto|]); [reflexivity|].
  apply IH.
Qed.

Lemma entanglers_loop_safe (P : io -> Prop) (N : string -> Prop)
  (l : list Entangler) g :
  (forall x r, P (IO (print (PEnt x)) r)) ->
  safe P N (fun ag => ag.2 = bind_each Name.ent l g)
       (for_in Name.ent l print_entangler g).
Proof.
  intros Hprint. revert g.
  induction l as [|v l IH]; intros g; [reflexivity|].
  cbn. intros [e|[]]; (split; [auto|]); [reflexivity|]. apply IH.
Qed.

End LoopSafety.

(** One step of a proof of [safe] on a known namespace: a call, a loop, or
    the read of a helper name. *)
Ltac safe_step :=
  cbn;
  first
  [ rewrite bind_each_other by (intros ?; discriminate)
  | lazymatch goal with
    | |- forall r, _ /\ _ =>
        intros [?|?]; (split; [cbn; auto|]); [reflexivity|]
    | |- safe _ _ _ (sbind (for_in Name.grouping _ _ _) _) =>
        eapply safe_sbind;
        [apply magnitudes_loop_safe; intros; exact I | intros [[] ?] ->]
    | |- safe _ _ _ (for_in Name.ent _ _ _) =>
        eapply safe_mono;
        [ apply entanglers_loop_safe; intros; exact I
        | intros ? Hn; exact Hn
        | intros ? _; exact I ]
    | |- safe _ _ _ ?p =>
        let b := pending_export p in
        let E := fresh "Hexp" in
        destruct b eqn:E;
        [|cbn; split; [apply (bool_decide_unpack _); reflexivity | exact E]]
    end ].

Section Safety.
Context {LT : LibTypes}.

Lemma cell_1_safe g :
  safe fixed_constants (fun _ => False) (fun _ => True) (cell_1 g).
Proof. unfold_cell_goal. repeat safe_step. exact I. Qed.

Lemma cell_5_safe names :
  safe fixed_constants (unexported names) (fun _ => True)
       (cell_5 (globals_after_setup names)).
Proof.
  unfold_cell_goal. unfold globals_after_setup, globals_after_imports,
    import_bindings.
  repeat safe_step. exact I.
Qed.

Lemma cell_7_safe names u :
  safe fixed_constants (unexported names) (fun _ => True)
       (cell_7 (globals_after_ucc names u)).
Proof.
  unfold_cell_goal.
  unfold globals_after_ucc, globals_after_setup, globals_after_imports,
    import_bindings.
  repeat safe_step.
Qed.

Lemma cell_9_safe names u r :
  safe fixed_constants (unexported names) (fun _ => True)
       (cell_9 (globals_after_ranking names u r)).
Proof.
  unfold_cell_goal.
  unfold globals_after_ranking, globals_after_ucc, globals_after_setup,
    globals_after_imports,
    import_bindings.
  repeat safe_step. exact I.
Qed.

End Safety.

(** * Runs of a list of cells *)
Section Cells.
Context {LT : LibTypes}.

(** A run of cells is determined by the answers it got. *)
Lemma exec_cells_deterministic cs g trs1 trs2 o1 o2 :
  exec_cells cs g trs1 o1 -> exec_cells cs g trs2 o2 ->
  map (map answer_of) trs1 = map (map answer_of) trs2 ->
  trs1 = trs2 /\ o1 = o2.
Proof.
  revert g trs1 trs2. induction cs as [|c cs IH]; intros g trs1 trs2; simpl.
  - intros [-> ->] [-> ->] _. auto.
  - destruct (ctype c).
    + intros (trs1' & -> & H1) (trs2' & -> & H2) Heq.
      injection Heq as Heq.
      destruct (IH _ _ _ H1 H2 Heq) as [-> ->]. auto.
    + intros [(tr1 & e1 & -> & Hc1 & ->)|(tr1 & g1 & trs1' & -> & Hc1 & H1)]
             [(tr2 & e2 & -> & Hc2 & ->)|(tr2 & g2 & trs2' & -> & Hc2 & H2)]
             Heq; simpl in Heq;
        pose proof (f_equal head Heq) as Hhd; apply (inj Some) in Hhd;
        pose proof (f_equal tail Heq) as Htl; simpl in Htl.
      * destruct (exec_deterministic _ _ _ _ _ Hc1 Hc2 Hhd) as [-> [= ->]].
        auto.
      * destruct (exec_deterministic _ _ _ _ _ Hc1 Hc2 Hhd) as [_ [=]].
      * destruct (exec_deterministic _ _ _ _ _ Hc1 Hc2 Hhd) as [_ [=]].
      * destruct (exec_deterministic _ _ _ _ _ Hc1 Hc2 Hhd) as [-> [= ->]].
        destruct (IH _ _ _ H1 H2 Htl) as [-> ->]. auto.
Qed.

Lemma agrees_with_app_l {S} (h : handler S) s tr tr' :
  agrees_with h s (tr ++ tr') -> agrees_with h s tr.
Proof.
  revert s. induction tr as [|[t c r] tr IH]; intros s; simpl; [auto|].
  intros [Hr Htr]. eauto.
Qed.

(** A run of cells whose answers are those of a handler is the run against
    that handler. *)
Lemma exec_cells_agrees_with {S} (h : handler S) cs g s trs o :
  exec_cells cs g trs o -> agrees_with h s (concat trs) ->
  trs = (run_cells h cs g s).1.1 /\ o = (run_cells h cs g s).1.2.
Proof.
  revert g s trs. induction cs as [|c cs IH]; intros g s trs; simpl.
  - intros [-> ->] _. auto.
  - destruct (ctype c).
    + intros (trs' & -> & H) Hag. simpl in Hag.
      destruct (IH g s trs' H Hag) as [-> ->].
      destruct (run_cells h cs g s) as [[trs0 o0] s0]. auto.
    + intros [(tr & e & -> & Hc & ->)|(tr & g' & trs' & -> & Hc & H)] Hag;
        simpl in Hag.
      * rewrite app_nil_r in Hag.
        destruct (exec_agrees_with h _ s tr _ Hc Hag) as (Htr & Ho & _).
        destruct (run h (source c g) s) as [[tr0 o0] s0]. simpl in *.
        subst. auto.
      * destruct (exec_agrees_with h _ s tr _ Hc
                    (agrees_with_app_l h s tr _ Hag)) as (Htr & Ho & Happ).
        apply Happ in Hag.
        destruct (run h (source c g) s) as [[tr0 o0] s0]. simpl in *.
        subst. destruct (IH g' s0 trs' H Hag) as [-> ->].
        destruct (run_cells h cs g' s0) as [[trs0 o1] s1]. auto.
Qed.

(** A markdown cell adds nothing to a run. *)
Lemma runs_with_markdown cs g tr o :
  runs_with (md :: cs) g tr o <-> runs_with cs g tr o.
Proof.
  unfold runs_with. cbn [exec_cells ctype md]. split.
  - intros (trs & (trs' & -> & H) & <-). eauto.
  - intros (trs & H & <-). exists ([] :: trs). eauto.
Qed.

(** Cells that run alike still do so after one more code cell. *)
Lemma runs_with_code p cs cs' :
  (forall g tr o, runs_with cs g tr o <-> runs_with cs' g tr o) ->
  forall g tr o,
    runs_with (code_cell p :: cs) g tr o <->
    runs_with (code_cell p :: cs') g tr o.
Proof.
  assert (forall cs cs',
             (forall g tr o, runs_with cs g tr o -> runs_with cs' g tr o) ->
             forall g tr o,
               runs_with (code_cell p :: cs) g tr o ->
               runs_with (code_cell p :: cs') g tr o) as Himp.
  { clear cs cs'. intros cs cs' Hcs g tr o. unfold runs_with at 1 2.
    cbn [exec_cells ctype code_cell source].
    intros (trs & [(tr1 & e & -> & H1 & ->)
                  |(tr1 & g1 & trs1 & -> & H1 & H)] & <-).
    - exists [tr1]. split; [|reflexivity]. left. eauto.
    - destruct (Hcs g1 (concat trs1) o) as (trs2 & H2 & Heq).
      { exists trs1. auto. }
      exists (tr1 :: trs2). split; [right; eauto 6|].
      simpl. rewrite Heq. reflexivity. }
  intros Hcs g tr o. split; apply Himp; intros; apply Hcs; assumption.
Qed.

End Cells.

(** * Every execution of the notebook *)
Section Runs.
Context {LT : LibTypes}.

Lemma concat_completed_traces names u r v :
  concat (completed_traces names u r v) =
  imports_trace names ++ ucc_trace u ++ ranking_trace r ++ vqe_trace r v.
Proof.
  unfold completed_traces. cbn [concat app]. rewrite !app_nil_r.
  reflexivity.
Qed.

(** In the trace of a completed cell every call was answered with a value
    and took the fixed constants. *)
Lemma magnitudes_trace_Forall (P : io -> Prop) gs xs :
  (forall gr x, P (ok (getitem gr 1) x)) ->
  (forall x, P (ok (print (PItem x)) tt)) ->
  Forall P (magnitudes_trace gs xs).
Proof.
  intros Hget Hprint. unfold magnitudes_trace.
  induction (zip gs xs) as [|[gr x] l IH]; [constructor|].
  simpl. repeat constructor; auto.
Qed.

Lemma entanglers_trace_Forall (P : io -> Prop) es :
  (forall e, P (ok (print (PEnt e)) tt)) -> Forall P (entanglers_trace es).
Proof.
  intros Hprint. unfold entanglers_trace.
  induction es as [|e l IH]; constructor; auto.
Qed.

Lemma ranking_trace_Forall (P : io -> Prop) r :
  Forall P (ranking_head r) -> Forall P (ranking_tail r) ->
  (forall gr x, P (ok (getitem gr 1) x)) ->
  (forall p, P (ok (print p) tt)) ->
  Forall P (ranking_trace r).
Proof.
  intros Hh Ht Hget Hprint. unfold ranking_trace.
  rewrite !Forall_app. split; [exact Hh|].
  split; [apply magnitudes_trace_Forall; auto|].
  split; [exact Ht|]. apply entanglers_trace_Forall. auto.
Qed.

Lemma imports_trace_ok names :
  Forall (fun x => answered x /\ fixed_constants x) (imports_trace names).
Proof. repeat constructor. Qed.

Lemma ucc_trace_ok u :
  Forall (fun x => answered x /\ fixed_constants x) (ucc_trace u).
Proof. repeat constructor. Qed.

Lemma ranking_trace_ok r :
  Forall (fun x => answered x /\ fixed_constants x) (ranking_trace r).
Proof. apply ranking_trace_Forall; repeat constructor. Qed.

Lemma vqe_trace_ok r v :
  Forall (fun x => answered x /\ fixed_constants x) (vqe_trace r v).
Proof. repeat constructor. Qed.

Lemma stopped_after_ok before N :
  stopped_after before N ->
  Forall answered (concat before) /\ Forall fixed_constants (concat before).
Proof.
  intros Hb.
  assert (Forall (fun x => answered x /\ fixed_constants x) (concat before))
    as Hall.
  { destruct Hb as [|names|names u|names u r Hlen]; cbn [concat app];
      rewrite ?app_nil_r, ?Forall_app;
      auto using imports_trace_ok, ucc_trace_ok, ranking_trace_ok. }
  split; eapply Forall_impl; try exact Hall; intros x [? ?]; assumption.
Qed.

Lemma completed_traces_ok names u r v :
  Forall answered (concat (completed_traces names u r v)) /\
  Forall fixed_constants (concat (completed_traces names u r v)).
Proof.
  assert (Forall (fun x => answered x /\ fixed_constants x)
            (concat (completed_traces names u r v))) as Hall.
  { rewrite concat_completed_traces, !Forall_app.
    auto using imports_trace_ok, ucc_trace_ok, ranking_trace_ok,
      vqe_trace_ok. }
  split; eapply Forall_impl; try exact Hall; intros x [? ?]; assumption.
Qed.

Lemma ends_with_app {R} tr1 tr2 (o : outcome R) :
  Forall answered tr1 -> ends_with tr2 o -> ends_with (tr1 ++ tr2) o.
Proof.
  intros H1 H2. destruct o as [r|[n|e]]; simpl in *.
  - apply Forall_app. auto.
  - apply Forall_app. auto.
  - destruct H2 as (tr0 & t & c & -> & Htr0).
    exists (tr1 ++ tr0), t, c. rewrite app_assoc.
    split; [reflexivity|]. apply Forall_app. auto.
Qed.

(** How a run that did not complete ended: in the import cell, the UCC
    cell, the ranking cell or the QCC VQE cell, on an exception answered by
    the last call of that cell or on a helper name that the star import did
    not bind; the cells before it ran to their end. *)
Lemma execution_stopped trs e :
  execution trs (Raised e) ->
  exists before N tr,
    trs = before ++ [tr] /\ stopped_after before N /\
    Forall fixed_constants tr /\
    ends_with (R := unit * Globals) tr (Raised e) /\
    match e with NameError n => N n | LibraryError _ => True end.
Proof.
  unfold execution, notebook.
  cbn [exec_cells ctype md code_cell source].
  intros (? & -> & [(tr & ? & -> & Hf & [= <-])
                   |(tr1 & g1 & ? & -> & H1 & H)]).
  { destruct (safe_exec _ _ _ _ _ _ (cell_1_safe no_globals) Hf)
      as (HP & Hend & HN).
    exists [[]], (fun _ => False), tr.
    split; [reflexivity|]. split; [constructor|]. auto. }
  apply cell_1_returned in H1 as (names & -> & ->).
  destruct H as (? & -> & [(tr & ? & -> & Hf & [= <-])
                          |(tr3 & g3 & ? & -> & H3 & H)]).
  { destruct Hf as [_ [=]]. }
  apply cell_3_returned in H3 as (-> & ->).
  destruct H as (? & -> & [(tr & ? & -> & Hf & [= <-])
                          |(tr5 & g5 & ? & -> & H5 & H)]).
  { destruct (safe_exec _ _ _ _ _ _ (cell_5_safe names) Hf)
      as (HP & Hend & HN).
    exists [[]; imports_trace names; []; []; []], (unexported names), tr.
    split; [reflexivity|]. split; [constructor|]. auto. }
  apply cell_5_returned in H5 as (_ & u & -> & ->).
  destruct H as (? & -> & [(tr & ? & -> & Hf & [= <-])
                          |(tr7 & g7 & ? & -> & H7 & H)]).
  { destruct (safe_exec _ _ _ _ _ _ (cell_7_safe names u) Hf)
      as (HP & Hend & HN).
    exists [[]; imports_trace names; []; []; []; ucc_trace u; []],
           (unexported names), tr.
    split; [reflexivity|]. split; [constructor|]. auto. }
  apply cell_7_returned in H7 as (_ & _ & _ & _ & r & Hlen & -> & ->).
  destruct H as (? & -> & [(tr & ? & -> & Hf & [= <-])
                          |(tr9 & g9 & ? & -> & H9 & H)]).
  { destruct (safe_exec _ _ _ _ _ _ (cell_9_safe names u r) Hf)
      as (HP & Hend & HN).
    exists [[]; imports_trace names; []; []; []; ucc_trace u; [];
            ranking_trace r; []], (unexported names), tr.
    split; [reflexivity|]. split; [constructor; exact Hlen|]. auto. }
  destruct H as [(tr & ? & -> & Hf & [= <-])
                |(tr10 & g10 & ? & -> & H10 & _ & [=])].
  destruct Hf as [_ [=]].
Qed.

(** In every execution each call takes the fixed constants, and an
    exception answered by a call ended the run at that call. *)
Lemma execution_safe trs o :
  execution trs o ->
  Forall fixed_constants (concat trs) /\ ends_with (concat trs) o.
Proof.
  intros Hex. destruct o as [g|e].
  - apply execution_completed in Hex as (names & u & r & v & _ & _ & -> & _).
    destruct (completed_traces_ok names u r v). split; assumption.
  - apply execution_stopped in Hex
      as (before & N & tr & -> & Hb & HP & Hend & _).
    apply stopped_after_ok in Hb as [Ha Hc].
    rewrite concat_app. cbn [concat]. rewrite app_nil_r.
    split; [apply Forall_app; auto|]. apply ends_with_app; assumption.
Qed.

End Runs.
(** * Selecting calls from a completed run *)
Section Selecting.
Context {LT : LibTypes}.

(** The two print loops make no stage call, and no call that any of the
    selections below keeps. *)
Lemma filter_magnitudes_trace (f : io -> bool) gs xs :
  (forall gr x, f (ok (getitem gr 1) x) = false) ->
  (forall x, f (ok (print (PItem x)) tt) = false) ->
  List.filter f (magnitudes_trace gs xs) = [].
Proof.
  intros Hget Hprint. unfold magnitudes_trace.
  induction (zip gs xs) as [|[gr x] l IH]; [reflexivity|].
  simpl. rewrite Hget, Hprint. exact IH.
Qed.

Lemma filter_entanglers_trace (f : io -> bool) es :
  (forall e, f (ok (print (PEnt e)) tt) = false) ->
  List.filter f (entanglers_trace es) = [].
Proof.
  intros Hprint. unfold entanglers_trace.
  induction es as [|e l IH]; [reflexivity|].
  simpl. rewrite Hprint. exact IH.
Qed.

Lemma filter_ranking_trace (f : io -> bool) r :
  (forall gr x, f (ok (getitem gr 1) x) = false) ->
  (forall p, f (ok (print p) tt) = false) ->
  List.filter f (ranking_trace r) =
  List.filter f (ranking_head r ++ ranking_tail r).
Proof.
  intros Hget Hprint. unfold ranking_trace.
  rewrite !List.filter_app, filter_magnitudes_trace,
    filter_entanglers_trace by auto.
  rewrite app_nil_r. reflexivity.
Qed.

Lemma ucc_workflow_completed names u r v :
  ucc_workflow (completed_traces names u r v) = ucc_trace u.
Proof. reflexivity. Qed.

Lemma qcc_workflow_completed names u r v :
  qcc_workflow (completed_traces names u r v)
  = ranking_trace r ++ vqe_trace r v.
Proof. reflexivity. Qed.

Lemma stages_ranking_trace r :
  stages (ranking_trace r) = [Configure; Configure; BuildHamiltonian].
Proof.
  unfold stages, ranking_trace, magnitudes_trace, entanglers_trace.
  rewrite !omap_app. simpl.
  replace (omap stage_of (flat_map _ _)) with (@nil stage).
  2:{ induction (zip _ _) as [|[gr x] l IH]; [reflexivity | exact IH]. }
  replace (omap stage_of (map _ _)) with (@nil stage).
  2:{ induction (rk_entanglers r) as [|e l IH]; [reflexivity | exact IH]. }
  reflexivity.
Qed.

(** Selecting calls from a completed run: the print loops contribute
    nothing to a selection that keeps neither [grouping[1]] nor [print]. *)
Lemma filter_completed (f : io -> bool) names u r v :
  (forall gr x, f (ok (getitem gr 1) x) = false) ->
  (forall p, f (ok (print p) tt) = false) ->
  List.filter f (concat (completed_traces names u r v)) =
  List.filter f (imports_trace names ++ ucc_trace u ++ ranking_head r
                 ++ ranking_tail r ++ vqe_trace r v).
Proof.
  intros Hget Hprint. rewrite concat_completed_traces.
  rewrite !List.filter_app, filter_ranking_trace by assumption.
  rewrite List.filter_app, <- !app_assoc. reflexivity.
Qed.

Lemma run_stateless_answered {R} lib (p : script R) s :
  Forall (answered_by lib) (run (stateless lib) p s).1.1.
Proof.
  revert s. induction p as [r|x|t c k IH]; intros s;
    [constructor | constructor |].
  cbn [run]. unfold stateless at 1.
  specialize (IH (lib t c) s).
  destruct (run (stateless lib) (k (lib t c)) s) as [[tr o] s'].
  constructor; [reflexivity | exact IH].
Qed.

Lemma run_cells_stateless_answered lib cs g s :
  Forall (answered_by lib) (concat (run_cells (stateless lib) cs g s).1.1).
Proof.
  revert g s. induction cs as [|c cs IH]; intros g s; simpl; [constructor|].
  destruct (ctype c).
  - specialize (IH g s).
    destruct (run_cells (stateless lib) cs g s) as [[trs o] s'].
    exact IH.
  - pose proof (run_stateless_answered lib (source c g) s) as Hc.
    destruct (run (stateless lib) (source c g) s) as [[tr [[[] g']|e]] s'];
      simpl in *.
    + specialize (IH g' s').
      destruct (run_cells (stateless lib) cs g' s') as [[trs o] s''].
      simpl in *. apply Forall_app. auto.
    + rewrite app_nil_r. exact Hc.
Qed.

Lemma imports_of_completed names u r v :
  imports_of (concat (completed_traces names u r v)) =
  [ImportAs "numpy" "np"; ImportAs "tequila" "tq"; ImportStar "utility"].
Proof.
  rewrite concat_completed_traces. unfold imports_of, ranking_trace.
  rewrite !omap_app.
  replace (omap as_import (magnitudes_trace _ _)) with (@nil import_stmt).
  2:{ unfold magnitudes_trace.
      induction (zip _ _) as [|[gr x] l IH]; [reflexivity | exact IH]. }
  replace (omap as_import (entanglers_trace _)) with (@nil import_stmt).
  2:{ unfold entanglers_trace.
      induction (rk_entanglers r) as [|e l IH]; [reflexivity | exact IH]. }
  reflexivity.
Qed.

Ltac minimize_case :=
  let Hx := fresh "Hx" in
  let Hm := fresh "Hm" in
  intros ? ? ? ? ? Hx Hm;
  repeat (apply elem_of_cons in Hx as [->|Hx];
          [simpl in Hm; try discriminate Hm|]);
  [ injection Hm as <- <- <- <-;
    split; [reflexivity|]; split; [reflexivity|];
    eexists; split; [|reflexivity];
    repeat first [apply list_elem_of_here | apply list_elem_of_further] ..
  | apply elem_of_nil in Hx; destruct Hx ].

(** Along every path of the UCC cell run after the setup cells. *)
Lemma cell_5_minimize names tr o :
  exec (cell_5 (globals_after_setup names)) tr o -> ucc_minimize_arguments tr.
Proof.
  intros H. unfold ucc_minimize_arguments. unfold_cell H.
  unfold globals_after_setup, globals_after_imports,
    import_bindings in H.
  repeat (
    cbn in H;
    lazymatch type of H with
    | ex _ =>
        let r := fresh "r" in
        destruct H as (r & ? & -> & H); destruct r as [?|?];
        [cbn in H; destruct H as [-> _]; minimize_case|]
    | exec ?p _ _ =>
        let b := pending_export p in
        destruct b; [|cbn in H; destruct H as [-> _]; minimize_case]
    end).
  cbn in H. destruct H as [-> _]. minimize_case.
Qed.

(** The trace of the UCC cell in a run of the notebook is a trace of
    [cell_5] started after the setup cells (or empty, when the run stopped
    before). *)
Lemma ucc_workflow_exec trs o :
  execution trs o ->
  ucc_workflow trs = [] \/
  exists names o5,
    exec (cell_5 (globals_after_setup names)) (ucc_workflow trs) o5.
Proof.
  unfold execution, notebook.
  cbn [exec_cells ctype md code_cell source].
  intros (? & -> & [(tr1 & e & -> & H1 & _)|(tr1 & g1 & ? & -> & H1 & H)]);
    [left; reflexivity|].
  destruct H as (? & -> & [(tr3 & e & -> & H3 & _)
                          |(tr3 & g3 & ? & -> & H3 & H)]);
    [left; reflexivity|].
  apply cell_1_returned in H1 as (names & -> & ->).
  apply cell_3_returned in H3 as (-> & ->).
  right. exists names.
  destruct H as (? & -> & [(tr5 & e & -> & H5 & _)
                          |(tr5 & g5 & ? & -> & H5 & _)]);
    eauto.
Qed.

End Selecting.

(** * The sample runs are executions *)

Lemma demo_execution : execution demo_traces (Returned demo_globals).
Proof.
  assert (demo_outcome = Returned demo_globals) as <-
    by (vm_compute; reflexivity).
  exact (run_cells_exec (stateless demo_lib) notebook no_globals tt).
Qed.

Lemma failing_execution :
  execution failing_traces (Raised (LibraryError "psi4 is not installed")).
Proof.
  assert (snd (fst failing_run)
          = Raised (LibraryError "psi4 is not installed")) as <-
    by (vm_compute; reflexivity).
  exact (run_cells_exec (stateless failing_lib) notebook no_globals tt).
Qed.

Lemma execution_without_hf_occ :
  execution traces_without_hf_occ (Raised (NameError "hf_occ")).
Proof.
  assert (snd (fst run_without_hf_occ) = Raised (NameError "hf_occ")) as <-
    by (vm_compute; reflexivity).
  exact (run_cells_exec (stateless lib_without_hf_occ) notebook no_globals
           tt).
Qed.

(** * Projecting calls from a completed run *)
Section Projections.
Context {LT : LibTypes}.

(** Projecting the calls of a completed run. *)
Lemma omap_completed {A} (f : io -> option A) names u r v :
  omap f (concat (completed_traces names u r v)) =
  omap f (imports_trace names ++ ucc_trace u ++ ranking_head r)
  ++ omap f (magnitudes_trace (rk_groupings r) (rk_magnitudes r))
  ++ omap f (ranking_tail r)
  ++ omap f (entanglers_trace (rk_entanglers r))
  ++ omap f (vqe_trace r v).
Proof.
  rewrite concat_completed_traces. unfold ranking_trace.
  rewrite !omap_app, <- !app_assoc. reflexivity.
Qed.

Lemma omap_magnitudes_none {A} (f : io -> option A) gs xs :
  (forall gr x, f (ok (getitem gr 1) x) = None) ->
  (forall x, f (ok (print (PItem x)) tt) = None) ->
  omap f (magnitudes_trace gs xs) = [].
Proof.
  intros Hget Hprint. unfold magnitudes_trace.
  induction (zip gs xs) as [|[gr x] l IH]; [reflexivity|].
  simpl. rewrite Hget, Hprint. exact IH.
Qed.

Lemma omap_entanglers_none {A} (f : io -> option A) es :
  (forall e, f (ok (print (PEnt e)) tt) = None) ->
  omap f (entanglers_trace es) = [].
Proof.
  intros Hprint. unfold entanglers_trace.
  induction es as [|e l IH]; [reflexivity|].
  simpl. rewrite Hprint. exact IH.
Qed.

Lemma printed_magnitudes gs xs :
  length xs = length gs ->
  omap printed (magnitudes_trace gs xs) = map PItem xs.
Proof.
  unfold magnitudes_trace. revert xs.
  induction gs as [|gr gs IH]; intros [|x xs] Hlen; try discriminate;
    [reflexivity|].
  cbn. f_equal. apply IH. simpl in Hlen. congruence.
Qed.

Lemma getitem_magnitudes gs xs :
  omap as_getitem (magnitudes_trace gs xs) =
  map (fun gx => (gx.1, 1, gx.2)) (zip gs xs).
Proof.
  unfold magnitudes_trace.
  induction (zip gs xs) as [|[gr x] l IH]; [reflexivity|].
  cbn. f_equal. exact IH.
Qed.

Lemma printed_entanglers es :
  omap printed (entanglers_trace es) = map PEnt es.
Proof.
  unfold entanglers_trace.
  induction es as [|e l IH]; [reflexivity|]. cbn. f_equal. exact IH.
Qed.

End Projections.

(** * The callees of a completed run *)
Section Callees.
Context {LT : LibTypes}.

Lemma callees_magnitudes_trace gs xs :
  length xs = length gs ->
  map callee_of (magnitudes_trace gs xs) =
  concat (replicate (length gs)
            [ Member (Bare "generate_QCC_gradient_groupings") "__getitem__";
              Bare "print" ]).
Proof.
  unfold magnitudes_trace. revert xs.
  induction gs as [|gr gs IH]; intros [|x xs] Hlen; try discriminate;
    [reflexivity|].
  simpl. rewrite IH by (simpl in Hlen; congruence). reflexivity.
Qed.

Lemma callees_entanglers_trace es :
  map callee_of (entanglers_trace es) = replicate (length es) (Bare "print").
Proof.
  unfold entanglers_trace.
  induction es as [|e es IH]; [reflexivity|]. simpl. rewrite IH. reflexivity.
Qed.

Lemma callees_completed names u r v :
  length (rk_magnitudes r) = length (rk_groupings r) ->
  map callee_of (concat (completed_traces names u r v)) =
  callees_in_order (length (rk_groupings r)) (length (rk_entanglers r)).
Proof.
  intros Hlen. rewrite concat_completed_traces. unfold ranking_trace.
  rewrite !map_app, callees_magnitudes_trace, callees_entanglers_trace
    by exact Hlen.
  unfold callees_in_order. rewrite <- !app_assoc. reflexivity.
Qed.

Lemma calls_into_completed names u r v :
  Forall (calls_into called_modules
            (imports_of (concat (completed_traces names u r v))))
         (concat (completed_traces names u r v)).
Proof.
  rewrite imports_of_completed, concat_completed_traces.
  assert (forall x, callee_of x = ImportStatement ->
                    calls_into called_modules
                      [ImportAs "numpy" "np"; ImportAs "tequila" "tq";
                       ImportStar "utility"] x) as Himp
    by (intros x Hx; left; exact Hx).
  assert (forall x m,
             provider [ImportAs "numpy" "np"; ImportAs "tequila" "tq";
                       ImportStar "utility"] (callee_of x) = Some m ->
             bool_decide (m ∈ called_modules) = true ->
             calls_into called_modules
               [ImportAs "numpy" "np"; ImportAs "tequila" "tq";
                ImportStar "utility"] x) as Hcall.
  { intros x m Hm Hin. right. exists m. split; [exact Hm|].
    exact (bool_decide_eq_true_1 _ Hin). }
  rewrite !Forall_app. split; [|split; [|split]].
  - repeat (apply List.Forall_cons; [apply Himp; reflexivity|]).
    apply List.Forall_nil.
  - repeat (apply List.Forall_cons; [eapply Hcall; reflexivity|]).
    apply List.Forall_nil.
  - apply ranking_trace_Forall.
    + repeat (apply List.Forall_cons; [eapply Hcall; reflexivity|]).
      apply List.Forall_nil.
    + repeat (apply List.Forall_cons; [eapply Hcall; reflexivity|]).
      apply List.Forall_nil.
    + intros gr x. eapply Hcall; reflexivity.
    + intros p. eapply Hcall; reflexivity.
  - repeat (apply List.Forall_cons; [eapply Hcall; reflexivity|]).
    apply List.Forall_nil.
Qed.

End Callees.

(** * The claims *)

(** C1.  In every completed run, each of the two workflows goes through the
    five stages in the order (1) configure the molecule with
    [get_molecular_data] and [tq.quantumchemistry.Molecule], (2)
    [molecule.make_hamiltonian()], (3) build the ansatz
    ([make_uccsd_ansatz] for UCC; [construct_QMF_ansatz],
    [construct_QCC_ansatz] and their sum for QCC), (4) [tq.ExpectationValue]
    of that Hamiltonian and that circuit, (5) [tq.minimize] of that
    objective: the stage calls are exactly the listed ones, each fed the
    answer of the stage before, and the sequence of stages is 1, 2, 3, 4, 5
    with none missing, repeated or out of order. *)
Theorem pipeline_stages_in_order {LT : LibTypes} trs g :
  execution trs (Returned g) ->
  exists u r v,
    stage_calls (ucc_workflow trs) = ucc_pipeline u /\
    stage_calls (qcc_workflow trs) = qcc_pipeline r v /\
    merge_repeats (stages (ucc_workflow trs)) =
      [Configure; BuildHamiltonian; BuildAnsatz; WrapObjective; Minimize] /\
    merge_repeats (stages (qcc_workflow trs)) =
      [Configure; BuildHamiltonian; BuildAnsatz; WrapObjective; Minimize].
Proof.
  intros Hex. apply execution_completed in Hex
    as (names & u & r & v & _ & _ & -> & _).
  exists u, r, v.
  rewrite ucc_workflow_completed, qcc_workflow_completed.
  split; [reflexivity|]. split; [|split; [reflexivity|]].
  - unfold stage_calls.
    rewrite List.filter_app, filter_ranking_trace by reflexivity.
    reflexivity.
  - unfold stages. rewrite omap_app.
    change (omap stage_of (ranking_trace r)) with (stages (ranking_trace r)).
    rewrite stages_ranking_trace. reflexivity.
Qed.

(** The sample run goes through the five stages in both workflows. *)
Lemma pipeline_stages_in_order_witness :
  execution demo_traces (Returned demo_globals) /\
  exists u r v,
    stage_calls (ucc_workflow demo_traces) = ucc_pipeline u /\
    stage_calls (qcc_workflow demo_traces) = qcc_pipeline r v /\
    merge_repeats (stages (ucc_workflow demo_traces)) =
      [Configure; BuildHamiltonian; BuildAnsatz; WrapObjective; Minimize] /\
    merge_repeats (stages (qcc_workflow demo_traces)) =
      [Configure; BuildHamiltonian; BuildAnsatz; WrapObjective; Minimize].
Proof.
  split; [exact demo_execution|].
  exact (pipeline_stages_in_order demo_traces demo_globals demo_execution).
Defined.

(** C2.  A completed run builds the ansatz of exactly two families and
    minimizes an energy for each.  The ansatz calls are [make_uccsd_ansatz] (with
    [initial_amplitudes='mp2'], the threshold [1e-6] that the ranking also
    uses as its cutoff, and [trotter_steps=1]) and, for QCC, the mean-field
    part, the entangler part and their sum.  The only [tq.ExpectationValue]
    and [tq.minimize] calls are one pair per family: each objective wraps
    the Hamiltonian answered by [make_hamiltonian] and that family's
    circuit, and is the objective handed to [tq.minimize]. *)
Theorem two_ansatz_families {LT : LibTypes} trs g :
  execution trs (Returned g) ->
  exists u r v,
    List.filter is_ansatz_call (concat trs) =
      [ ok (make_uccsd_ansatz (ucc_molecule u) "mp2" 1e-6%float 1)
           (ucc_U_UCCSD u);
        ok (construct_QMF_ansatz (2 * vq_n_orbitals v)) (vq_U_MF v);
        ok (construct_QCC_ansatz (rk_entanglers r)) (vq_U_ENT v);
        ok (circuit_add (vq_U_MF v) (vq_U_ENT v)) (vq_U_QCC v) ] /\
    List.filter is_ranking_call (concat trs) =
      [ ok (generate_QCC_gradient_groupings (rk_H_of r)
              (2 * rk_n_orbitals_rank r) (rk_hf_reference r) 1e-6%float)
           (rk_groupings r) ] /\
    List.filter is_hamiltonian_call (concat trs) =
      [ ok (make_hamiltonian (ucc_molecule u)) (ucc_H u);
        ok (make_hamiltonian (rk_molecule r)) (rk_H r) ] /\
    List.filter is_vqe_call (concat trs) =
      [ ok (tq_ExpectationValue (ucc_H u) (ucc_U_UCCSD u)) (ucc_E u);
        ok (tq_minimize (ucc_E u) "BFGS"
              (dict_comprehension (ucc_variables u) 0.0%float) 1e-6%float)
           (ucc_result u);
        ok (tq_ExpectationValue (rk_H r) (vq_U_QCC v)) (vq_E v);
        ok (tq_minimize (vq_E v) "BFGS" (vq_initial_vals v) 1e-6%float)
           (vq_result v) ].
Proof.
  intros Hex. apply execution_completed in Hex
    as (names & u & r & v & _ & _ & -> & _).
  exists u, r, v.
  rewrite !filter_completed by reflexivity. repeat split.
Qed.

(** The sample run: its four objective and minimizer calls, and its ansatz
    calls. *)
Lemma two_ansatz_families_witness :
  execution demo_traces (Returned demo_globals) /\
  List.filter is_vqe_call (concat demo_traces) =
    [ ok (tq_ExpectationValue "H[Molecule(h2 at R=2, sto-3g)]" "U_UCCSD")
         "<U_UCCSD|H|U_UCCSD>";
      ok (tq_minimize "<U_UCCSD|H|U_UCCSD>" "BFGS"
            [("(1, 0, 1, 0)", 0.0%float)] 1e-6%float)
         "E=-0.94864111";
      ok (tq_ExpectationValue "H[Molecule(h2 at R=2, sto-3g)]" "U_MF+U_ENT")
         "<U_MF+U_ENT|H|U_MF+U_ENT>";
      ok (tq_minimize "<U_MF+U_ENT|H|U_MF+U_ENT>" "BFGS"
            (map (fun k => (k, 0.0%float)) demo_qcc_variables) 1e-6%float)
         "E=-0.94864111" ] /\
  exists u r v,
    List.filter is_ansatz_call (concat demo_traces) =
      [ ok (make_uccsd_ansatz (ucc_molecule u) "mp2" 1e-6%float 1)
           (ucc_U_UCCSD u);
        ok (construct_QMF_ansatz (2 * vq_n_orbitals v)) (vq_U_MF v);
        ok (construct_QCC_ansatz (rk_entanglers r)) (vq_U_ENT v);
        ok (circuit_add (vq_U_MF v) (vq_U_ENT v)) (vq_U_QCC v) ].
Proof.
  split; [exact demo_execution|]. split; [vm_compute; reflexivity|].
  destruct (two_ansatz_families demo_traces demo_globals demo_execution)
    as (u & r & v & Ha & _).
  exists u, r, v. exact Ha.
Defined.

(** C3 (as the code has it).  In a completed run the hard parts are all
    calls to code outside the notebook, eight in all.  Hamiltonian
    construction, Trotterization (building the UCCSD circuit), the
    expectation-value objective and the optimization are provided by
    tequila: [tq.ExpectationValue], [tq.minimize] and methods of the
    molecule made by [tq.quantumchemistry.Molecule].  The gradient-based
    entangler ranking, [generate_QCC_gradient_groupings], is a bare name
    bound by [from utility import *]: the module [utility] provides it, and
    [utility] is none of tequila, openfermion, scipy. *)
Theorem hard_parts_providers {LT : LibTypes} trs g :
  execution trs (Returned g) ->
  map (fun x => (hard_part_of x,
                 provider (imports_of (concat trs)) (callee_of x)))
      (List.filter is_hard_part (concat trs)) =
    [ (Some HamiltonianConstruction, Some "tequila");
      (Some Trotterization, Some "tequila");
      (Some ExpectationValueEvaluation, Some "tequila");
      (Some ClassicalOptimization, Some "tequila");
      (Some HamiltonianConstruction, Some "tequila");
      (Some EntanglerRanking, Some "utility");
      (Some ExpectationValueEvaluation, Some "tequila");
      (Some ClassicalOptimization, Some "tequila") ] /\
  "utility" ∉ claimed_libraries.
Proof.
  intros Hex. apply execution_completed in Hex
    as (names & u & r & v & _ & _ & -> & _).
  rewrite imports_of_completed, filter_completed by reflexivity.
  split; [reflexivity|].
  unfold claimed_libraries. rewrite !elem_of_cons, elem_of_nil.
  intros [?|[?|[?|[]]]]; discriminate.
Qed.

(** The providers of the hard parts in the sample run. *)
Lemma hard_parts_providers_witness :
  execution demo_traces (Returned demo_globals) /\
  map (fun x => (hard_part_of x,
                 provider (imports_of (concat demo_traces)) (callee_of x)))
      (List.filter is_hard_part (concat demo_traces)) =
    [ (Some HamiltonianConstruction, Some "tequila");
      (Some Trotterization, Some "tequila");
      (Some ExpectationValueEvaluation, Some "tequila");
      (Some ClassicalOptimization, Some "tequila");
      (Some HamiltonianConstruction, Some "tequila");
      (Some EntanglerRanking, Some "utility");
      (Some ExpectationValueEvaluation, Some "tequila");
      (Some ClassicalOptimization, Some "tequila") ].
Proof.
  split; [exact demo_execution|].
  exact (proj1 (hard_parts_providers demo_traces demo_globals
                  demo_execution)).
Defined.

(** C3 as the spec states it fails on the sample run: the ranking call is a
    hard part, and the module that provides it is [utility]. *)
Lemma hard_parts_not_all_in_claimed_libraries :
  execution demo_traces (Returned demo_globals) /\
  ~ hard_parts_in claimed_libraries demo_traces.
Proof.
  split; [exact demo_execution|]. intros Hall.
  destruct (Hall demo_ranking_call) as (m & Hm & Hin).
  - apply (list_elem_of_lookup_2 _ 18%nat). vm_compute. reflexivity.
  - reflexivity.
  - vm_compute in Hm. injection Hm as <-.
    unfold claimed_libraries in Hin.
    rewrite !elem_of_cons, elem_of_nil in Hin.
    destruct Hin as [?|[?|[?|[]]]]; discriminate.
Qed.




(** C5.  The notebook recovers from no failure.  In every execution, an
    exception that a call is answered with is the outcome of the run,
    unchanged, and that call is the last entry of the trace: no call is
    wrapped in a handler and nothing of the script ran after it.  A run that
    completed had every call answered with a value and made every call of
    the script.  A run that did not complete ended on such an exception or
    on the interpreter's [NameError] for a helper name that
    [from utility import *] did not bind; the notebook raises nothing else.
    And no answer is checked before it is used: whatever values the calls
    answer, the run goes on to its end. *)
Theorem errors_propagate_unhandled {LT : LibTypes} trs o :
  execution trs o ->
  (forall tr0 t (c : libE t) le rest,
      concat trs = tr0 ++ IO c (inl le) :: rest ->
      rest = [] /\ o = Raised (LibraryError le)) /\
  match o with
  | Returned _ =>
      Forall answered (concat trs) /\
      exists names u r v, trs = completed_traces names u r v
  | Raised (LibraryError le) =>
      exists tr0 t (c : libE t),
        concat trs = tr0 ++ [IO c (inl le)] /\ Forall answered tr0
  | Raised (NameError n) =>
      Forall answered (concat trs) /\
      exists names,
        ok (import_star "utility") names ∈ concat trs /\
        unexported names n
  end /\
  (forall names u r v,
      helpers_exported names ->
      length (rk_magnitudes r) = length (rk_groupings r) ->
      execution (completed_traces names u r v)
                (Returned (final_globals names u r v))).
Proof.
  intros Hex. destruct (execution_safe _ _ Hex) as [_ Hend].
  split; [|split; [|exact completed_traces_execution]].
  - intros tr0 t c le rest Heq.
    exact (ends_with_raised _ _ _ _ _ _ _ Hend Heq).
  - destruct o as [g|[n|le]].
    + split; [exact Hend|].
      apply execution_completed in Hex
        as (names & u & r & v & _ & _ & -> & _).
      eauto.
    + split; [exact Hend|].
      apply execution_stopped in Hex
        as (before & N & tr & -> & Hb & _ & _ & HN).
      destruct Hb as [|names|names u|names u r Hlen]; [destruct HN|..];
        exists names; (split; [|exact HN]);
        apply (list_elem_of_lookup_2 _ 2%nat); reflexivity.
    + exact Hend.
Qed.

(** The run in which [make_uccsd_ansatz] raises ends with that exception,
    raised by the last call of its trace; the run in which [utility] does
    not export [hf_occ] ends with the [NameError] for that name. *)
Lemma errors_propagate_unhandled_witness :
  (execution failing_traces (Raised (LibraryError "psi4 is not installed")) /\
   exists tr0 t (c : libE t),
     concat failing_traces = tr0 ++ [IO c (inl "psi4 is not installed")] /\
     Forall answered tr0) /\
  (execution traces_without_hf_occ (Raised (NameError "hf_occ")) /\
   Forall answered (concat traces_without_hf_occ) /\
   exists names,
     ok (import_star "utility") names ∈ concat traces_without_hf_occ /\
     unexported names "hf_occ").
Proof.
  split.
  - split; [exact failing_execution|].
    exact (proj1 (proj2 (errors_propagate_unhandled failing_traces
                           (Raised (LibraryError "psi4 is not installed"))
                           failing_execution))).
  - split; [exact execution_without_hf_occ|].
    exact (proj1 (proj2 (errors_propagate_unhandled traces_without_hf_occ
                           (Raised (NameError "hf_occ"))
                           execution_without_hf_occ))).
Defined.

(** C6.  The notebook is a deterministic straight-line program.  Two
    executions that got the same answers from the environment made the same
    calls in the same order with the same arguments (prints and their values
    included) and ended alike; an execution answered by a library is the
    run against that library, so two executions with the same library
    behaviour are one and the same.  In every execution the calls that take
    them carry the fixed constants, and a completed run does pass each of
    them: [basis='sto-3g'] to both [Molecule] calls, [threshold=1e-6] and
    [trotter_steps=1] to [make_uccsd_ansatz], [threshold=1e-6] as the
    cutoff of the ranking, [n_ents=1] to [get_QCC_entanglers]; the four
    names still hold these values at the end.  The callees of a completed
    run are those of the source in the order of the source, whatever the
    answers, with only the number of loop rounds depending on them: nothing
    is skipped or branched on, and nothing is cached -- the molecule and
    the Hamiltonian are built again in the QCC workflow and
    [molecule.n_orbitals] is read afresh each time.  Every call goes into
    [print], the module [utility] or tequila: the notebook calls no
    threading, scheduling or caching facility. *)
Theorem deterministic_straight_line {LT : LibTypes} trs1 trs2 o1 o2 :
  execution trs1 o1 -> execution trs2 o2 ->
  map (map answer_of) trs1 = map (map answer_of) trs2 ->
  trs1 = trs2 /\ o1 = o2 /\
  Forall fixed_constants (concat trs1) /\
  (forall S (h : handler S) s,
      agrees_with h s (concat trs1) ->
      trs1 = (run_notebook h s).1.1 /\ o1 = (run_notebook h s).1.2) /\
  (forall g, o1 = Returned g ->
     exists u r,
       List.filter takes_constant (concat trs1) =
         [ ok (tq_quantumchemistry_Molecule (ucc_xyz_data u) "sto-3g")
              (ucc_molecule u);
           ok (make_uccsd_ansatz (ucc_molecule u) "mp2" 1e-6%float 1)
              (ucc_U_UCCSD u);
           ok (tq_quantumchemistry_Molecule (rk_xyz_data r) "sto-3g")
              (rk_molecule r);
           ok (generate_QCC_gradient_groupings (rk_H_of r)
                 (2 * rk_n_orbitals_rank r) (rk_hf_reference r) 1e-6%float)
              (rk_groupings r);
           ok (get_QCC_entanglers (rk_groupings r) 1
                 (2 * rk_n_orbitals_ent r))
              (rk_entanglers r) ] /\
       g Name.basis = Some "sto-3g" /\
       g Name.threshold = Some 1e-6%float /\
       g Name.trotter_steps = Some 1 /\
       g Name.n_ents = Some 1 /\
       map callee_of (concat trs1) =
         callees_in_order (length (rk_groupings r))
                          (length (rk_entanglers r)) /\
       Forall (calls_into called_modules (imports_of (concat trs1)))
              (concat trs1)).
Proof.
  intros H1 H2 Heq.
  destruct (exec_cells_deterministic _ _ _ _ _ _ H1 H2 Heq) as [-> ->].
  split; [reflexivity|]. split; [reflexivity|].
  split; [exact (proj1 (execution_safe _ _ H2))|].
  split; [intros S h s Hag; exact (exec_cells_agrees_with h _ _ s _ _ H2 Hag)|].
  intros g ->.
  apply execution_completed in H2 as (names & u & r & v & _ & Hlen & -> & ->).
  exists u, r.
  split; [rewrite filter_completed by reflexivity; reflexivity|].
  do 4 (split; [lookup_name|]).
  split; [exact (callees_completed names u r v Hlen)|].
  apply calls_into_completed.
Qed.

(** The sample run and the run against the counting handler got the same
    answers, and are the same; the sample run passes each constant. *)
Lemma deterministic_straight_line_witness :
  execution demo_traces (Returned demo_globals) /\
  execution (fst (fst counted_run)) (snd (fst counted_run)) /\
  map (map answer_of) demo_traces
    = map (map answer_of) (fst (fst counted_run)) /\
  demo_traces = fst (fst counted_run) /\
  Returned demo_globals = snd (fst counted_run) /\
  List.filter takes_constant (concat demo_traces) =
    [ ok (tq_quantumchemistry_Molecule "h2 at R=2" "sto-3g")
         "Molecule(h2 at R=2, sto-3g)";
      ok (make_uccsd_ansatz "Molecule(h2 at R=2, sto-3g)" "mp2" 1e-6%float 1)
         "U_UCCSD";
      ok (tq_quantumchemistry_Molecule "h2 at R=2" "sto-3g")
         "Molecule(h2 at R=2, sto-3g)";
      ok (generate_QCC_gradient_groupings "of(H[Molecule(h2 at R=2, sto-3g)])"
            4 [1; 1; 0; 0] 1e-6%float)
         ["([X0 Y1 X2 X3], 0.2591)"];
      ok (get_QCC_entanglers ["([X0 Y1 X2 X3], 0.2591)"] 1 4)
         ["1.0 [X0 Y1 X2 X3]"] ] /\
  map callee_of (concat demo_traces) = callees_in_order 1 1.
Proof.
  assert (execution (fst (fst counted_run)) (snd (fst counted_run))) as Hc
    by exact (run_cells_exec counting_handler notebook no_globals 0%nat).
  assert (map (map answer_of) demo_traces
          = map (map answer_of) (fst (fst counted_run))) as Heq
    by (vm_compute; reflexivity).
  split; [exact demo_execution|]. split; [exact Hc|]. split; [exact Heq|].
  destruct (deterministic_straight_line demo_traces (fst (fst counted_run))
              (Returned demo_globals) (snd (fst counted_run))
              demo_execution Hc Heq) as (Htrs & Ho & _).
  split; [exact Htrs|]. split; [exact Ho|].
  split; vm_compute; reflexivity.
Defined.

(** C7.  In every execution, a [tq.minimize] call made by the UCC cell has
    method ["BFGS"], tolerance [1e-6], and as initial values the dictionary
    [{k: 0.0 for k in E.extract_variables()}] built from the answer of
    [extract_variables] on the very objective being minimized: its keys are
    exactly the extracted variables, each once, every value is [0.0], and
    when the extracted list has no repeats there is one entry per element. *)
Theorem ucc_minimize_initial_values {LT : LibTypes} trs o x objective method
  initial_values tol :
  execution trs o ->
  x ∈ ucc_workflow trs ->
  as_minimize x = Some (objective, method, initial_values, tol) ->
  method = "BFGS" /\ tol = 1e-6%float /\
  exists variables,
    ok (extract_variables objective) variables ∈ ucc_workflow trs /\
    initial_values = dict_comprehension variables 0.0%float /\
    (forall k, dict_get initial_values k =
               if decide (k ∈ variables) then Some 0.0%float else None) /\
    NoDup (dict_keys initial_values) /\
    (forall k, k ∈ dict_keys initial_values <-> k ∈ variables) /\
    Forall (fun kv => kv.2 = 0.0%float) initial_values /\
    (NoDup variables ->
     initial_values = map (fun k => (k, 0.0%float)) variables).
Proof.
  intros Hex Hx Hm.
  destruct (ucc_workflow_exec trs o Hex) as [Hnil|(names & o5 & H5)].
  - rewrite Hnil in Hx. apply elem_of_nil in Hx. destruct Hx.
  - destruct (cell_5_minimize names _ o5 H5 x _ _ _ _ Hx Hm)
      as (-> & -> & variables & Hin & ->).
    split; [reflexivity|]. split; [reflexivity|].
    exists variables. split; [exact Hin|]. split; [reflexivity|].
    apply dict_comprehension_spec.
Qed.

(** The [tq.minimize] call of the UCC cell in the sample run. *)
Lemma ucc_minimize_initial_values_witness :
  execution demo_traces (Returned demo_globals) /\
  demo_ucc_minimize ∈ ucc_workflow demo_traces /\
  exists variables,
    ok (extract_variables "<U_UCCSD|H|U_UCCSD>") variables
      ∈ ucc_workflow demo_traces /\
    [("(1, 0, 1, 0)", 0.0%float)] = dict_comprehension variables 0.0%float.
Proof.
  assert (demo_ucc_minimize ∈ ucc_workflow demo_traces) as Hin
    by (apply (list_elem_of_lookup_2 _ 6); vm_compute; reflexivity).
  split; [exact demo_execution|]. split; [exact Hin|].
  destruct (ucc_minimize_initial_values demo_traces (Returned demo_globals)
              demo_ucc_minimize "<U_UCCSD|H|U_UCCSD>" "BFGS"
              [("(1, 0, 1, 0)", 0.0%float)] 1e-6%float
              demo_execution Hin eq_refl)
    as (_ & _ & variables & Hv & Hd & _).
  exists variables. split; assumption.
Defined.

(** C8.  In a completed run the UCC workflow and the QCC workflow build the
    molecule and the Hamiltonian by the same three calls with the same
    inputs: [get_molecular_data('h2', geometry=2, xyz_format=True)],
    [tq.quantumchemistry.Molecule] of its answer with basis ['sto-3g'], and
    [make_hamiltonian()] on that molecule with no further argument; each
    objective wraps the Hamiltonian built in its own workflow.  Hence, when
    the environment answers equal calls equally, the Hamiltonian in the QCC
    objective equals the one in the UCC objective. *)
Theorem same_hamiltonian_construction {LT : LibTypes} trs g :
  execution trs (Returned g) ->
  exists xyz1 m1 h1 xyz2 m2 h2 u1 e1 u2 e2,
    List.filter is_construction_call (ucc_workflow trs)
      = construction xyz1 m1 h1 /\
    List.filter is_construction_call (qcc_workflow trs)
      = construction xyz2 m2 h2 /\
    List.filter (fun x => match stage_of x with
                          | Some WrapObjective => true
                          | _ => false
                          end) (concat trs)
      = [ ok (tq_ExpectationValue h1 u1) e1;
          ok (tq_ExpectationValue h2 u2) e2 ] /\
    forall lib, Forall (answered_by lib) (concat trs) ->
                xyz2 = xyz1 /\ m2 = m1 /\ h2 = h1.
Proof.
  intros Hex. apply execution_completed in Hex
    as (names & u & r & v & _ & _ & -> & _).
  exists (ucc_xyz_data u), (ucc_molecule u), (ucc_H u),
         (rk_xyz_data r), (rk_molecule r), (rk_H r),
         (ucc_U_UCCSD u), (ucc_E u), (vq_U_QCC v), (vq_E v).
  rewrite ucc_workflow_completed, qcc_workflow_completed.
  split; [reflexivity|]. split; [|split].
  - rewrite List.filter_app, filter_ranking_trace by reflexivity. reflexivity.
  - rewrite filter_completed by reflexivity. reflexivity.
  - intros lib Hlib. rewrite concat_completed_traces in Hlib.
    apply Forall_app in Hlib as [_ Hlib].
    apply Forall_app in Hlib as [Hucc Hlib].
    apply Forall_app in Hlib as [Hrk _].
    unfold ranking_trace in Hrk. apply Forall_app in Hrk as [Hrk _].
    unfold ucc_trace in Hucc. unfold ranking_head in Hrk.
    repeat match goal with
           | Hf : Forall _ (_ :: _) |- _ =>
               apply Forall_cons in Hf as [? Hf]
           end.
    simpl in *.
    assert (rk_xyz_data r = ucc_xyz_data u) as Hxyz by congruence.
    rewrite Hxyz in *.
    assert (rk_molecule r = ucc_molecule u) as Hm by congruence.
    rewrite Hm in *.
    assert (rk_H r = ucc_H u) as Hh by congruence.
    auto.
Qed.

(** The sample environment is stateless: both objectives of the sample run
    wrap the same Hamiltonian. *)
Lemma same_hamiltonian_construction_witness :
  execution demo_traces (Returned demo_globals) /\
  Forall (answered_by demo_lib) (concat demo_traces) /\
  exists h u1 e1 u2 e2,
    List.filter (fun x => match stage_of x with
                          | Some WrapObjective => true
                          | _ => false
                          end) (concat demo_traces)
      = [ ok (tq_ExpectationValue h u1) e1;
          ok (tq_ExpectationValue h u2) e2 ].
Proof.
  assert (Forall (answered_by demo_lib) (concat demo_traces)) as Hlib
    by exact (run_cells_stateless_answered demo_lib notebook no_globals tt).
  split; [exact demo_execution|]. split; [exact Hlib|].
  destruct (same_hamiltonian_construction demo_traces demo_globals
              demo_execution)
    as (xyz1 & m1 & h1 & xyz2 & m2 & h2 & u1 & e1 & u2 & e2
        & _ & _ & Hobj & Heq).
  destruct (Heq demo_lib Hlib) as (_ & _ & ->).
  exists h1, u1, e1, u2, e2. exact Hobj.
Defined.



(** * Further properties of the cells *)

(** X1.  Whatever values the outside calls answer -- with every helper name
    bound by the star import and one item per ranked grouping -- the cells
    run to completion with exactly these calls: no cell inspects or rejects
    an answer, and an empty ranking or an empty list of entanglers does not
    stop the run.  A run with these traces can end in no other way, and
    leaves the namespace [final_globals]. *)
Theorem any_answers_complete {LT : LibTypes} names u r v :
  helpers_exported names ->
  length (rk_magnitudes r) = length (rk_groupings r) ->
  execution (completed_traces names u r v)
            (Returned (final_globals names u r v)) /\
  forall o, execution (completed_traces names u r v) o ->
            o = Returned (final_globals names u r v).
Proof.
  intros Hnames Hlen.
  pose proof (completed_traces_execution names u r v Hnames Hlen) as Hex.
  split; [exact Hex|]. intros o Ho.
  destruct (exec_cells_deterministic _ _ _ _ _ _ Ho Hex eq_refl) as [_ ->].
  reflexivity.
Qed.

(** With an empty ranking the notebook still completes. *)
Lemma any_answers_complete_witness :
  helpers_exported demo_names /\
  execution
    (completed_traces demo_names demo_ucc_answers empty_ranking_answers
       mean_field_vqe_answers)
    (Returned (final_globals demo_names demo_ucc_answers
                 empty_ranking_answers mean_field_vqe_answers)).
Proof.
  assert (helpers_exported demo_names) as Hnames
    by (repeat constructor).
  split; [exact Hnames|].
  exact (proj1 (any_answers_complete demo_names demo_ucc_answers
                  empty_ranking_answers mean_field_vqe_answers Hnames
                  eq_refl)).
Defined.



(** X3.  What a completed run prints and indexes.  The ranking cell prints
    the header, then for each ranked grouping, in the order of the ranking,
    the item [grouping[1]] it has just read (index 1, one read per
    grouping); then the second header, then each entangler that
    [get_QCC_entanglers] answered, in order.  No other cell prints, and with
    an empty ranking only the two headers are printed. *)
Theorem printed_output {LT : LibTypes} trs g :
  execution trs (Returned g) ->
  exists r,
    List.filter is_ranking_call (concat trs) =
      [ ok (generate_QCC_gradient_groupings (rk_H_of r)
              (2 * rk_n_orbitals_rank r) (rk_hf_reference r) 1e-6%float)
           (rk_groupings r) ] /\
    List.filter is_entangler_call (concat trs) =
      [ ok (get_QCC_entanglers (rk_groupings r) 1 (2 * rk_n_orbitals_ent r))
           (rk_entanglers r) ] /\
    length (rk_magnitudes r) = length (rk_groupings r) /\
    omap as_getitem (concat trs)
      = map (fun gx => (gx.1, 1, gx.2))
            (zip (rk_groupings r) (rk_magnitudes r)) /\
    omap printed (concat trs)
      = PStr "Grouping gradient magnitudes:" :: map PItem (rk_magnitudes r)
        ++ PStr (String "010"%char "Generated entanglers:")
           :: map PEnt (rk_entanglers r) /\
    omap printed (cell_trace trs 7) = omap printed (concat trs).
Proof.
  intros Hex.
  apply execution_completed in Hex as (names & u & r & v & _ & Hlen & -> & _).
  exists r.
  assert (omap printed (ranking_trace r)
          = PStr "Grouping gradient magnitudes:" :: map PItem (rk_magnitudes r)
            ++ PStr (String "010"%char "Generated entanglers:")
               :: map PEnt (rk_entanglers r)) as Hprinted.
  { unfold ranking_trace. rewrite !omap_app.
    rewrite printed_magnitudes, printed_entanglers by exact Hlen.
    reflexivity. }
  split; [|split; [|split; [exact Hlen|split; [|split]]]].
  - rewrite filter_completed by reflexivity. reflexivity.
  - rewrite filter_completed by reflexivity. reflexivity.
  - rewrite omap_completed, getitem_magnitudes.
    rewrite omap_entanglers_none by reflexivity.
    change (omap as_getitem
              (imports_trace names ++ ucc_trace u ++ ranking_head r))
      with (@nil (Grouping * Z * Item)).
    change (omap as_getitem (ranking_tail r))
      with (@nil (Grouping * Z * Item)).
    change (omap as_getitem (vqe_trace r v))
      with (@nil (Grouping * Z * Item)).
    rewrite !app_nil_r. reflexivity.
  - rewrite omap_completed.
    rewrite printed_magnitudes, printed_entanglers by exact Hlen.
    change (omap printed (vqe_trace r v)) with (@nil printable).
    rewrite app_nil_r. reflexivity.
  - rewrite omap_completed.
    rewrite printed_magnitudes, printed_entanglers by exact Hlen.
    change (omap printed (vqe_trace r v)) with (@nil printable).
    change (cell_trace (completed_traces names u r v) 7)
      with (ranking_trace r).
    rewrite Hprinted, app_nil_r. reflexivity.
Qed.

(** What the sample run prints: the stored output of the ranking cell. *)
Lemma printed_output_witness :
  execution demo_traces (Returned demo_globals) /\
  omap printed (concat demo_traces)
    = [ PStr "Grouping gradient magnitudes:"; PItem "0.2591";
        PStr (String "010"%char "Generated entanglers:");
        PEnt "1.0 [X0 Y1 X2 X3]" ] /\
  exists r,
    length (rk_magnitudes r) = length (rk_groupings r) /\
    omap as_getitem (concat demo_traces)
      = map (fun gx => (gx.1, 1, gx.2))
            (zip (rk_groupings r) (rk_magnitudes r)).
Proof.
  split; [exact demo_execution|]. split; [vm_compute; reflexivity|].
  destruct (printed_output demo_traces demo_globals demo_execution)
    as (r & _ & _ & Hlen & Hget & _).
  exists r. split; assumption.
Defined.

(** X4.  Qubit counts.  A completed run reads [molecule.n_orbitals] four
    times, each time on the molecule that the ranking cell made with its
    [tq.quantumchemistry.Molecule] call -- the molecule the name [molecule]
    still holds at the end -- and never keeps the value: right after each
    read, [hf_occ], the gradient ranking, the entangler selection and the
    mean-field ansatz, in this order, are given twice the value just read.
    When the environment answers equal calls equally, the four counts are
    therefore one and the same even number. *)
Theorem qubit_counts {LT : LibTypes} trs g :
  execution trs (Returned g) ->
  exists r v,
    List.filter is_molecule_call (cell_trace trs 7) =
      [ ok (tq_quantumchemistry_Molecule (rk_xyz_data r) "sto-3g")
           (rk_molecule r) ] /\
    g Name.molecule = Some (rk_molecule r) /\
    List.filter counts_qubits (concat trs) =
      [ ok (n_orbitals (rk_molecule r)) (rk_n_orbitals_hf r);
        ok (hf_occ (2 * rk_n_orbitals_hf r) (rk_n_electrons r))
           (rk_hf_reference r);
        ok (n_orbitals (rk_molecule r)) (rk_n_orbitals_rank r);
        ok (generate_QCC_gradient_groupings (rk_H_of r)
              (2 * rk_n_orbitals_rank r) (rk_hf_reference r) 1e-6%float)
           (rk_groupings r);
        ok (n_orbitals (rk_molecule r)) (rk_n_orbitals_ent r);
        ok (get_QCC_entanglers (rk_groupings r) 1 (2 * rk_n_orbitals_ent r))
           (rk_entanglers r);
        ok (n_orbitals (rk_molecule r)) (vq_n_orbitals v);
        ok (construct_QMF_ansatz (2 * vq_n_orbitals v)) (vq_U_MF v) ] /\
    omap as_n_orbitals (concat trs) =
      [ (rk_molecule r, rk_n_orbitals_hf r);
        (rk_molecule r, rk_n_orbitals_rank r);
        (rk_molecule r, rk_n_orbitals_ent r);
        (rk_molecule r, vq_n_orbitals v) ] /\
    omap qubit_count (concat trs) =
      [ 2 * rk_n_orbitals_hf r; 2 * rk_n_orbitals_rank r;
        2 * rk_n_orbitals_ent r; 2 * vq_n_orbitals v ] /\
    forall lib, Forall (answered_by lib) (concat trs) ->
                rk_n_orbitals_rank r = rk_n_orbitals_hf r /\
                rk_n_orbitals_ent r = rk_n_orbitals_hf r /\
                vq_n_orbitals v = rk_n_orbitals_hf r.
Proof.
  intros Hex.
  apply execution_completed in Hex as (names & u & r & v & _ & _ & -> & ->).
  exists r, v.
  split; [|split; [|split; [|split; [|split]]]].
  - change (cell_trace (completed_traces names u r v) 7)
      with (ranking_trace r).
    rewrite filter_ranking_trace by reflexivity. reflexivity.
  - lookup_name.
  - rewrite filter_completed by reflexivity. reflexivity.
  - rewrite omap_completed.
    rewrite omap_magnitudes_none, omap_entanglers_none by reflexivity.
    reflexivity.
  - rewrite omap_completed.
    rewrite omap_magnitudes_none, omap_entanglers_none by reflexivity.
    reflexivity.
  - intros lib Hlib. rewrite concat_completed_traces in Hlib.
    apply Forall_app in Hlib as [_ Hlib].
    apply Forall_app in Hlib as [_ Hlib].
    apply Forall_app in Hlib as [Hrk Hvq].
    unfold ranking_trace in Hrk.
    apply Forall_app in Hrk as [Hhead Hrk].
    apply Forall_app in Hrk as [_ Hrk].
    apply Forall_app in Hrk as [Htail _].
    unfold ranking_head in Hhead. unfold ranking_tail in Htail.
    unfold vqe_trace in Hvq.
    repeat match goal with
           | Hf : Forall _ (_ :: _) |- _ =>
               apply Forall_cons in Hf as [? Hf]
           end.
    simpl in *. repeat split; congruence.
Qed.

(** In the sample run every count is 4, on the molecule of the ranking
    cell. *)
Lemma qubit_counts_witness :
  execution demo_traces (Returned demo_globals) /\
  Forall (answered_by demo_lib) (concat demo_traces) /\
  List.filter counts_qubits (concat demo_traces) =
    [ ok (n_orbitals "Molecule(h2 at R=2, sto-3g)") 2;
      ok (hf_occ 4 2) [1; 1; 0; 0];
      ok (n_orbitals "Molecule(h2 at R=2, sto-3g)") 2;
      ok (generate_QCC_gradient_groupings "of(H[Molecule(h2 at R=2, sto-3g)])"
            4 [1; 1; 0; 0] 1e-6%float)
         ["([X0 Y1 X2 X3], 0.2591)"];
      ok (n_orbitals "Molecule(h2 at R=2, sto-3g)") 2;
      ok (get_QCC_entanglers ["([X0 Y1 X2 X3], 0.2591)"] 1 4)
         ["1.0 [X0 Y1 X2 X3]"];
      ok (n_orbitals "Molecule(h2 at R=2, sto-3g)") 2;
      ok (construct_QMF_ansatz 4) "U_MF" ] /\
  exists m n,
    demo_globals Name.molecule = Some m /\
    omap as_n_orbitals (concat demo_traces)
      = [(m, n); (m, n); (m, n); (m, n)].
Proof.
  assert (Forall (answered_by demo_lib) (concat demo_traces)) as Hlib
    by exact (run_cells_stateless_answered demo_lib notebook no_globals tt).
  split; [exact demo_execution|]. split; [exact Hlib|].
  split; [vm_compute; reflexivity|].
  destruct (qubit_counts demo_traces demo_globals demo_execution)
    as (r & v & _ & Hm & _ & Hn & _ & Heq).
  destruct (Heq demo_lib Hlib) as (E2 & E3 & E4).
  rewrite E2, E3, E4 in Hn.
  exists (rk_molecule r), (rk_n_orbitals_hf r). split; assumption.
Defined.

(** ** The names a cell needs *)

Section LoopOutcomes.
Context {LT : LibTypes}.

(** A loop ends by returning, or on an exception raised outside. *)
Lemma magnitudes_loop_outcome (l : list Grouping) g tr o :
  exec (for_in Name.grouping l print_magnitude g) tr o ->
  match o with
  | Returned ag => ag.2 = bind_each Name.grouping l g
  | Raised e => exists le, e = LibraryError le
  end.
Proof.
  intros H.
  destruct (safe_exec (fun _ => True) (fun _ => False) _ _ _ _
              (magnitudes_loop_safe _ _ l g (fun _ _ => I) (fun _ _ => I)) H)
    as (_ & _ & Ho).
  destruct o as [r|[n|e]]; [exact Ho | destruct Ho | eauto].
Qed.

Lemma entanglers_loop_outcome (l : list Entangler) g tr o :
  exec (for_in Name.ent l print_entangler g) tr o ->
  match o with
  | Returned ag => ag.2 = bind_each Name.ent l g
  | Raised e => exists le, e = LibraryError le
  end.
Proof.
  intros H.
  destruct (safe_exec (fun _ => True) (fun _ => False) _ _ _ _
              (entanglers_loop_safe _ _ l g (fun _ _ => I)) H)
    as (_ & _ & Ho).
  destruct o as [r|[n|e]]; [exact Ho | destruct Ho | eauto].
Qed.
End LoopOutcomes.

(** Symbolic execution of a cell from any namespace, along every path. *)
Ltac reads_done :=
  unfold reads_exactly, first_unbound, unbound_in, ucc_cell_reads,
    ranking_cell_reads, vqe_cell_reads;
  cbn [List.find];
  repeat match goal with E : ?g ?x = _ |- context [?g ?x] => rewrite E end;
  cbn [List.find];
  first [ exact I | reflexivity | eexists; split; reflexivity ].

(** The read of a name that a script is about to make. *)
Ltac pending_read p :=
  lazymatch p with
  | sbind ?p' _ => pending_read p'
  | match ?g ?x with _ => _ end => constr:(g x)
  end.

(** One step: an answer, a loop, or a read of a name of the namespace. *)
Ltac step_reads H :=
  repeat (
    cbn in H;
    first
    [ rewrite bind_each_other in H by (intros ?; discriminate)
    | match goal with
      | E : ?g ?x = _ |- _ => rewrite E in H
      end
    | lazymatch type of H with
      | ex _ =>
          let r := fresh "r" in
          destruct H as (r & ? & _ & H); destruct r as [?|?];
          [cbn in H; destruct H as [_ ->]; reads_done|]
      | exec (sbind (for_in _ _ _ _) _) _ _ =>
          let Hl := fresh "Hloop" in
          apply exec_sbind in H;
          destruct H as [(? & Hl & ->)|([[] ?] & ? & ? & Hl & H & _)];
          [ first [ apply magnitudes_loop_outcome in Hl
                  | apply entanglers_loop_outcome in Hl ];
            destruct Hl as [? ->]; reads_done
          | first [ apply magnitudes_loop_outcome in Hl
                  | apply entanglers_loop_outcome in Hl ];
            cbn in Hl; subst ]
      | exec ?p _ _ =>
          let t := pending_read p in
          let E := fresh "E" in
          destruct t eqn:E;
          [| cbn in H; destruct H as [_ ->]; reads_done ]
      end ]).

Section Reads.
Context {LT : LibTypes}.

Lemma cell_5_reads g tr o :
  exec (cell_5 g) tr o -> reads_exactly ucc_cell_reads g o.
Proof.
  intros H. unfold_cell H. step_reads H.
  destruct H as [_ ->]. reads_done.
Qed.

Lemma cell_9_reads g tr o :
  exec (cell_9 g) tr o -> reads_exactly vqe_cell_reads g o.
Proof.
  intros H. unfold_cell H. step_reads H.
  destruct H as [_ ->]. reads_done.
Qed.

Lemma cell_7_reads g tr o :
  exec (cell_7 g) tr o -> reads_exactly ranking_cell_reads g o.
Proof.
  intros H. unfold_cell H. step_reads H.
  apply entanglers_loop_outcome in H.
  destruct o as [r|[n|e]]; [reads_done| |reads_done].
  destruct H as [? [=]].
Qed.

Lemma cell_1_reads g tr o : exec (cell_1 g) tr o -> reads_exactly [] g o.
Proof.
  intros H. unfold_cell H. step_reads H. destruct H as [_ ->]. reads_done.
Qed.

Lemma cell_3_reads g tr o : exec (cell_3 g) tr o -> reads_exactly [] g o.
Proof.
  intros H. unfold_cell H. step_reads H. destruct H as [_ ->]. reads_done.
Qed.

Lemma cell_10_reads g tr o : exec (cell_10 g) tr o -> reads_exactly [] g o.
Proof.
  intros H. unfold_cell H. step_reads H. destruct H as [_ ->]. reads_done.
Qed.
End Reads.

(** X5.  The names each code cell needs.  Run on any namespace and with any
    answers, a code cell returns only when every name of its row of
    [free_reads] is bound, and a [NameError] it raises names the first name
    of that row that is unbound.  The row lists, in the order the cell first
    reads them, the names it reads before binding them itself; the callee of
    a call is read before its arguments: [get_molecular_data], [tq],
    [basis], [threshold], [trotter_steps] for the UCC cell;
    [get_molecular_data], [tq], [basis], [hf_occ],
    [generate_QCC_gradient_groupings], [threshold], [get_QCC_entanglers] for
    the ranking cell; [construct_QMF_ansatz], [molecule],
    [construct_QCC_ansatz], [entanglers], [tq], [H], [init_qcc_params],
    [hf_reference] for the QCC VQE cell.  The two setup cells and the empty
    cell read nothing and never raise a [NameError]. *)
Theorem cells_read_exactly {LT : LibTypes} c reads g tr o :
  (c, reads) ∈ free_reads -> exec (c g) tr o -> reads_exactly reads g o.
Proof.
  unfold free_reads. intros Hin.
  repeat (apply elem_of_cons in Hin as [[= -> ->]|Hin]).
  - apply cell_1_reads.
  - apply cell_3_reads.
  - apply cell_5_reads.
  - apply cell_7_reads.
  - apply cell_9_reads.
  - apply cell_10_reads.
  - apply elem_of_nil in Hin as [].
Qed.

(** The UCC cell run without the [trotter_steps] cell stops after three
    calls; the QCC VQE cell run on a fresh kernel stops before any call, on
    the name of its first callee. *)
Lemma cells_read_exactly_witness :
  ((cell_5, ucc_cell_reads) ∈ free_reads /\
   skipped_setup_run.1.2 = Raised (NameError "trotter_steps") /\
   first_unbound ucc_cell_reads without_trotter_steps
   = Some Name.trotter_steps) /\
  ((cell_9, vqe_cell_reads) ∈ free_reads /\
   exec (cell_9 no_globals) [] (Raised (NameError "construct_QMF_ansatz")) /\
   first_unbound vqe_cell_reads no_globals = Some Name.construct_QMF_ansatz).
Proof.
  split.
  - assert ((cell_5, ucc_cell_reads) ∈ free_reads) as Hin
      by (apply (list_elem_of_lookup_2 _ 2%nat); reflexivity).
    split; [exact Hin|].
    pose proof (cells_read_exactly cell_5 ucc_cell_reads
                  without_trotter_steps _ _ Hin
                  (run_exec (stateless demo_lib)
                     (cell_5 without_trotter_steps) tt)) as H.
    fold skipped_setup_run in H.
    assert (skipped_setup_run.1.2 = Raised (NameError "trotter_steps")) as Ho
      by (vm_compute; reflexivity).
    split; [exact Ho|]. rewrite Ho in H.
    destruct H as (x & Hx & Hn). destruct x; try discriminate Hn. exact Hx.
  - assert ((cell_9, vqe_cell_reads) ∈ free_reads) as Hin
      by (apply (list_elem_of_lookup_2 _ 4%nat); reflexivity).
    assert (exec (cell_9 no_globals) []
              (Raised (NameError "construct_QMF_ansatz"))) as Hex
      by (split; reflexivity).
    split; [exact Hin|]. split; [exact Hex|].
    destruct (cells_read_exactly cell_9 vqe_cell_reads no_globals _ _ Hin
                Hex) as (x & Hx & Hn).
    destruct x; try discriminate Hn. exact Hx.
Defined.

(** ** The order of the setup cells *)
Section Commute.
Context {LT : LibTypes}.

(** The bindings of the import cell and the assignment of [trotter_steps]
    are to different names: they commute. *)
Lemma import_bindings_trotter_steps names g :
  upd Name.trotter_steps 1 (import_bindings names g)
  = import_bindings names (upd Name.trotter_steps 1 g).
Proof.
  apply functional_extensionality_dep. intros z. destruct z; reflexivity.
Qed.

(** The import cell makes the same calls on every namespace, and binds the
    same names to the same values. *)
Lemma cell_1_any_namespace g g' tr o :
  exec (cell_1 g) tr o ->
  match o with
  | Returned (u, g1) =>
      exists names,
        g1 = import_bindings names g /\
        exec (cell_1 g') tr (Returned (u, import_bindings names g'))
  | Raised e => exec (cell_1 g') tr (Raised e)
  end.
Proof.
  intros H. unfold_cell H. unfold_cell_goal. cbn in H.
  destruct H as ([e|[]] & ? & -> & H); cbn in H.
  { destruct H as [-> ->]. cbn. eexists (inl _), _. repeat split. }
  destruct H as ([e|[]] & ? & -> & H); cbn in H.
  { destruct H as [-> ->]. cbn. eexists (inr tt), _. split; [reflexivity|].
    cbn. eexists (inl _), _. repeat split. }
  destruct H as ([e|names] & ? & -> & H); cbn in H; destruct H as [-> ->].
  { cbn. eexists (inr tt), _. split; [reflexivity|].
    cbn. eexists (inr tt), _. split; [reflexivity|].
    cbn. eexists (inl _), _. repeat split. }
  exists names. split; [reflexivity|].
  cbn. eexists (inr tt), _. split; [reflexivity|].
  cbn. eexists (inr tt), _. split; [reflexivity|].
  cbn. eexists (inr names), _. repeat split.
Qed.

(** The two setup cells, run one after the other in either order. *)
Lemma setup_cells_adjacent rest g tr o :
  runs_with (code_cell cell_1 :: code_cell cell_3 :: rest) g tr o <->
  runs_with (code_cell cell_3 :: code_cell cell_1 :: rest) g tr o.
Proof.
  unfold runs_with.
  cbn [exec_cells ctype code_cell source]. split.
  - intros (trs & [(tr1 & e & -> & H1 & ->)
                  |(tr1 & g1 & trs1 & -> & H1 & H)] & <-).
    + apply (cell_1_any_namespace g (upd Name.trotter_steps 1 g)) in H1.
      exists [[]; tr1]. split; [|reflexivity].
      right. eexists [], _, _. split; [reflexivity|].
      split; [split; reflexivity|]. left. eauto.
    + apply (cell_1_any_namespace g (upd Name.trotter_steps 1 g)) in H1
        as (names & -> & H1).
      destruct H as [(tr3 & e & _ & [_ [=]] & _)
                    |(tr3 & g3 & trs3 & -> & [-> [= ->]] & H)].
      exists ([] :: tr1 :: trs3). split; [|reflexivity].
      right. eexists [], _, _. split; [reflexivity|].
      split; [split; reflexivity|].
      right. eexists tr1, _, trs3. split; [reflexivity|].
      split; [exact H1|].
      rewrite <- import_bindings_trotter_steps. exact H.
  - intros (trs & H0 & <-).
    destruct H0 as [(tr3 & e & _ & [_ [=]] & _)
                   |(tr3 & g3 & trs3 & -> & [-> [= ->]] & H)].
    destruct H as [(tr1 & e & -> & H1 & ->)
                  |(tr1 & g1 & trs1 & -> & H1 & H)].
    + apply (cell_1_any_namespace _ g) in H1.
      exists [tr1]. split; [|reflexivity]. left. eauto.
    + apply (cell_1_any_namespace _ g) in H1 as (names & -> & H1).
      exists (tr1 :: [] :: trs1). split; [|reflexivity].
      right. eexists tr1, _, _. split; [reflexivity|].
      split; [exact H1|].
      right. eexists [], _, trs1. split; [reflexivity|].
      split; [split; reflexivity|].
      cbn [fst snd]. rewrite import_bindings_trotter_steps. exact H.
Qed.

End Commute.

(** X6.  The two setup cells commute.  Whatever cells follow, running the
    [trotter_steps] cell before the import cell -- the order in which the
    stored outputs were produced, by the [execution_count] fields 2 and 1 --
    gives the same calls, in the same order, and the same outcome, with the
    same final namespace, as running them top to bottom.  With [rest] the
    remaining cells and the fresh namespace, the left side is a run of the
    notebook. *)
Theorem setup_cells_commute {LT : LibTypes} rest g tr o :
  runs_with (md :: code_cell cell_1 :: md :: code_cell cell_3 :: rest) g tr o
  <->
  runs_with (md :: code_cell cell_3 :: md :: code_cell cell_1 :: rest) g tr o.
Proof.
  rewrite !runs_with_markdown.
  rewrite (runs_with_code cell_1 (md :: code_cell cell_3 :: rest)
             (code_cell cell_3 :: rest))
    by (intros; apply runs_with_markdown).
  rewrite (runs_with_code cell_3 (md :: code_cell cell_1 :: rest)
             (code_cell cell_1 :: rest))
    by (intros; apply runs_with_markdown).
  apply setup_cells_adjacent.
Qed.

(** ** The QCC workflow without the UCC cell *)



(** X8.  Where a run can stop.  A run that does not complete stopped in the
    import cell, the UCC cell, the ranking cell or the QCC VQE cell, never in
    the [trotter_steps] cell or the empty cell, and every cell before it ran
    to its end with the trace of a completed run.  It stopped on an
    exception answered by a call -- then that call is the last of the cell's
    trace and every call before it was answered with a value -- or on the
    [NameError] of a helper name that the star import did not bind, which
    cannot happen in the import cell. *)
Theorem failure_stops_in_a_calling_cell {LT : LibTypes} trs e :
  execution trs (Raised e) ->
  exists before N tr,
    trs = before ++ [tr] /\ stopped_after before N /\
    match e with
    | LibraryError le =>
        exists tr0 t (c : libE t),
          tr = tr0 ++ [IO c (inl le)] /\ Forall answered tr0
    | NameError n => Forall answered tr /\ N n
    end.
Proof.
  intros H.
  apply execution_stopped in H as (before & N & tr & -> & Hb & _ & Hend & HN).
  exists before, N, tr. split; [reflexivity|]. split; [exact Hb|].
  destruct e as [n|le]; [split; assumption | exact Hend].
Qed.

(** The run in which [make_uccsd_ansatz] raises stops in the UCC cell; the
    run in which [utility] does not export [hf_occ] stops in the ranking
    cell after two calls. *)
Lemma failure_stops_in_a_calling_cell_witness :
  (execution failing_traces (Raised (LibraryError "psi4 is not installed")) /\
   length failing_traces = 6%nat /\
   exists before N tr,
     failing_traces = before ++ [tr] /\ stopped_after before N) /\
  (execution traces_without_hf_occ (Raised (NameError "hf_occ")) /\
   length traces_without_hf_occ = 8%nat /\
   length (cell_trace traces_without_hf_occ 7) = 2%nat /\
   exists before N tr,
     traces_without_hf_occ = before ++ [tr] /\ stopped_after before N /\
     Forall answered tr /\ N "hf_occ").
Proof.
  split.
  - split; [exact failing_execution|]. split; [vm_compute; reflexivity|].
    destruct (failure_stops_in_a_calling_cell _ _ failing_execution)
      as (before & N & tr & Heq & Hb & _).
    exists before, N, tr. split; assumption.
  - split; [exact execution_without_hf_occ|].
    split; [vm_compute; reflexivity|]. split; [vm_compute; reflexivity|].
    exact (failure_stops_in_a_calling_cell _ _ execution_without_hf_occ).
Defined.
